(** * markdown-to-confluence: the storage-format renderer

    A shallow embedding of [convert.py] (class [ConfluenceRenderer]) and of
    the part of [record.py] it reads (class [Article]), together with the
    Python library functions the renderer calls: [str.format],
    [textwrap.dedent], [html.escape], [os.path] (posixpath) and
    [urllib.parse.urlparse].

    Python [str] values are modelled as [string]; a character is a code
    point below 256.  An operation that can raise returns a [result].  The
    library functions follow CPython 3.11; [mistune] is its release 0.8. *)

From Stdlib Require Import String Ascii List Bool Arith ZArith Lia DecimalString.
Import ListNotations.

Local Open Scope string_scope.
Local Open Scope Z_scope.

(* ===================================================================== *)
(** ** Python built-ins *)
(* ===================================================================== *)

Module Py.

(** The exceptions the modelled library functions raise. *)
Inductive exn : Type :=
| ValueError
| KeyError
| IndexError
| AttributeError.

Inductive result (A : Type) : Type :=
| Ok (a : A)
| Raise (e : exn).
Arguments Ok {A} a.
Arguments Raise {A} e.

Definition bind {A B : Type} (m : result A) (k : A -> result B) : result B :=
  match m with
  | Ok a => k a
  | Raise e => Raise e
  end.

(** Characters that cannot be typed inside a literal here. *)
Definition LF : string := String "010"%char EmptyString.
Definition dq : string := String "034"%char EmptyString.
Definition sq : string := String "039"%char EmptyString.

(** [q s] is [s] between double quotes, as it stands in the source text. *)
Definition q (s : string) : string := dq ++ s ++ dq.

(** Truthiness of a [str]: [bool(s)]. *)
Definition truthy (s : string) : bool :=
  match s with
  | EmptyString => false
  | String _ _ => true
  end.

(** [s[n:]] and [s[:n]] for [0 <= n]. *)
Fixpoint drop (n : nat) (s : string) : string :=
  match n, s with
  | O, _ => s
  | S n', String _ s' => drop n' s'
  | S _, EmptyString => EmptyString
  end.

Fixpoint take (n : nat) (s : string) : string :=
  match n, s with
  | S n', String c s' => String c (take n' s')
  | _, _ => EmptyString
  end.

(** [s.startswith(p)]. *)
Fixpoint startswith (p s : string) : bool :=
  match p, s with
  | EmptyString, _ => true
  | String a p', String b s' => Ascii.eqb a b && startswith p' s'
  | String _ _, EmptyString => false
  end.

(** [c in s] for a character [c]. *)
Fixpoint mem (c : ascii) (s : string) : bool :=
  match s with
  | EmptyString => false
  | String x s' => Ascii.eqb x c || mem c s'
  end.

(** [s.endswith(c)] for a character [c]. *)
Fixpoint endswith_char (c : ascii) (s : string) : bool :=
  match s with
  | EmptyString => false
  | String x EmptyString => Ascii.eqb x c
  | String _ s' => endswith_char c s'
  end.

(** [s.find(c)] for a character [c]: the first index, or [-1]. *)
Fixpoint find (c : ascii) (s : string) : Z :=
  match s with
  | EmptyString => -1
  | String x s' =>
      if Ascii.eqb x c then 0
      else let r := find c s' in if r <? 0 then -1 else r + 1
  end.

(** [s.rfind(c)] for a character [c]: the last index, or [-1]. *)
Fixpoint rfind (c : ascii) (s : string) : Z :=
  match s with
  | EmptyString => -1
  | String x s' =>
      let r := rfind c s' in
      if 0 <=? r then r + 1
      else if Ascii.eqb x c then 0 else -1
  end.

(** [s.find(p)] for a string [p], as an option. *)
Fixpoint find_str (p s : string) : option nat :=
  if startswith p s then Some O
  else match s with
       | EmptyString => None
       | String _ s' => option_map S (find_str p s')
       end.

(** [p in s] for a string [p]. *)
Definition contains (p s : string) : bool :=
  match find_str p s with
  | Some _ => true
  | None => false
  end.

(** [s.replace(c, by)] for a character [c]. *)
Fixpoint replace (c : ascii) (by_ : string) (s : string) : string :=
  match s with
  | EmptyString => EmptyString
  | String x s' =>
      if Ascii.eqb x c then by_ ++ replace c by_ s'
      else String x (replace c by_ s')
  end.

(** [sep.join(l)]. *)
Fixpoint join (sep : string) (l : list string) : string :=
  match l with
  | [] => EmptyString
  | [x] => x
  | x :: l' => x ++ sep ++ join sep l'
  end.

(** [s.split(c)] for a character [c]: never the empty list. *)
Fixpoint split (c : ascii) (s : string) : list string :=
  match s with
  | EmptyString => [EmptyString]
  | String x s' =>
      if Ascii.eqb x c then EmptyString :: split c s'
      else match split c s' with
           | [] => [String x EmptyString]
           | w :: ws => String x w :: ws
           end
  end.

(** [s.rstrip(c)] for a character [c]. *)
Fixpoint rstrip (c : ascii) (s : string) : string :=
  match s with
  | EmptyString => EmptyString
  | String x s' =>
      match rstrip c s' with
      | EmptyString => if Ascii.eqb x c then EmptyString else String x EmptyString
      | t => String x t
      end
  end.

(** [c * n] for a character [c]. *)
Fixpoint repeat_char (c : ascii) (n : nat) : string :=
  match n with
  | O => EmptyString
  | S n' => String c (repeat_char c n')
  end.

(** A multi-line literal, written one source line per list element. *)
Definition lines (l : list string) : string := join LF l.

(** *** [str.format]

    Replacement fields are [{}] (the next positional argument) and
    [{name}] (a keyword argument); [{{] and [}}] stand for a brace.  The
    text is read once, left to right: what is substituted is not read
    again.  Conversions and format specifications are not used by the
    source and are not modelled. *)

Inductive fstate : Type :=
| Lit                         (* in literal text *)
| Opened                      (* just after an opening brace *)
| Field (name : string)       (* inside a field, [name] read so far *)
| Closed.                     (* just after a closing brace in literal text *)

Fixpoint lookup (k : string) (kw : list (string * string)) : result string :=
  match kw with
  | [] => Raise KeyError
  | (k', v) :: kw' => if String.eqb k k' then Ok v else lookup k kw'
  end.

Fixpoint format_from (st : fstate) (t : string)
         (args : list string) (kw : list (string * string)) : result string :=
  match t with
  | EmptyString =>
      match st with
      | Lit => Ok EmptyString
      | _ => Raise ValueError
      end
  | String c t' =>
      match st with
      | Lit =>
          if Ascii.eqb c "{" then format_from Opened t' args kw
          else if Ascii.eqb c "}" then format_from Closed t' args kw
          else bind (format_from Lit t' args kw) (fun r => Ok (String c r))
      | Opened =>
          if Ascii.eqb c "{" then
            bind (format_from Lit t' args kw) (fun r => Ok (String c r))
          else if Ascii.eqb c "}" then
            match args with
            | [] => Raise IndexError
            | v :: args' =>
                bind (format_from Lit t' args' kw) (fun r => Ok (v ++ r))
            end
          else format_from (Field (String c EmptyString)) t' args kw
      | Field name =>
          if Ascii.eqb c "}" then
            bind (lookup name kw) (fun v =>
            bind (format_from Lit t' args kw) (fun r => Ok (v ++ r)))
          else if Ascii.eqb c "{" then Raise ValueError
          else format_from (Field (name ++ String c EmptyString)) t' args kw
      | Closed =>
          if Ascii.eqb c "}" then
            bind (format_from Lit t' args kw) (fun r => Ok (String c r))
          else Raise ValueError
      end
  end.

Definition format (t : string) (args : list string)
           (kw : list (string * string)) : result string :=
  format_from Lit t args kw.

(** A comprehension whose element expression can raise. *)
Fixpoint mapM {A B : Type} (f : A -> result B) (l : list A) : result (list B) :=
  match l with
  | [] => Ok []
  | x :: l' =>
      bind (f x) (fun y => bind (mapM f l') (fun ys => Ok (y :: ys)))
  end.

(** [c.isspace()], for a code point below 256. *)
Definition isspace (c : ascii) : bool :=
  let n := nat_of_ascii c in
  ((9 <=? n) && (n <=? 13) || (28 <=? n) && (n <=? 32)
   || (n =? 133) || (n =? 160))%nat.

(** [s.lstrip()], [s.rstrip()] and [s.strip()]. *)
Fixpoint lstrip_space (s : string) : string :=
  match s with
  | EmptyString => EmptyString
  | String c s' => if isspace c then lstrip_space s' else s
  end.

Fixpoint rstrip_space (s : string) : string :=
  match s with
  | EmptyString => EmptyString
  | String c s' =>
      match rstrip_space s' with
      | EmptyString => if isspace c then EmptyString else String c EmptyString
      | t => String c t
      end
  end.

Definition strip (s : string) : string := rstrip_space (lstrip_space s).

(** [s.endswith(suffix)]. *)
Fixpoint endswith (suffix s : string) : bool :=
  String.eqb suffix s
  || match s with
     | EmptyString => false
     | String _ s' => endswith suffix s'
     end.

End Py.

Notation "x <- m ;; k" := (Py.bind m (fun x => k))
  (at level 61, m at next level, right associativity).

(* ===================================================================== *)
(** ** [textwrap.dedent] *)
(* ===================================================================== *)

Module Textwrap.
Import Py.

Definition is_blank_char (c : ascii) : bool :=
  Ascii.eqb c " " || Ascii.eqb c "009".

Fixpoint all_blank (s : string) : bool :=
  match s with
  | EmptyString => true
  | String c s' => is_blank_char c && all_blank s'
  end.

(** The leading run of spaces and tabs of a line. *)
Fixpoint indent_of (s : string) : string :=
  match s with
  | EmptyString => EmptyString
  | String c s' => if is_blank_char c then String c (indent_of s') else EmptyString
  end.

(** [margin[:i]] for the first [i] where [margin] and [indent] differ. *)
Fixpoint common_prefix (a b : string) : string :=
  match a, b with
  | String x a', String y b' =>
      if Ascii.eqb x y then String x (common_prefix a' b') else EmptyString
  | _, _ => EmptyString
  end.

(** One turn of the loop over the indents. *)
Definition margin_step (margin : option string) (indent : string) : option string :=
  match margin with
  | None => Some indent
  | Some m =>
      if startswith m indent then Some m
      else if startswith indent m then Some indent
      else Some (common_prefix m indent)
  end.

Definition strip_margin (m line : string) : string :=
  if startswith m line then drop (String.length m) line else line.

Definition dedent (text : string) : string :=
  (* lines of spaces and tabs only become empty *)
  let ls := map (fun l => if all_blank l then EmptyString else l) (split "010" text) in
  (* the indent of every line that has something else on it *)
  let indents := map indent_of (filter (fun l => negb (all_blank l)) ls) in
  match fold_left margin_step indents None with
  | Some (String c m) => join LF (map (strip_margin (String c m)) ls)
  | _ => join LF ls
  end.

End Textwrap.

(* ===================================================================== *)
(** ** [html.escape] *)
(* ===================================================================== *)

Module Html.
Import Py.

(** [html.escape(s)] with its default [quote=True]: five replacements,
    the ampersand first. *)
Definition escape (s : string) : string :=
  let s := replace "&" "&amp;" s in
  let s := replace "<" "&lt;" s in
  let s := replace ">" "&gt;" s in
  let s := replace "034" "&quot;" s in
  let s := replace "039" "&#x27;" s in
  s.

End Html.

(* ===================================================================== *)
(** ** [os.path] on POSIX *)
(* ===================================================================== *)

Module PosixPath.
Import Py.

Definition sep : ascii := "/"%char.

(** [p[:p.rfind(sep) + 1]], stripped of trailing separators unless it is
    made of separators only. *)
Definition dirname (p : string) : string :=
  let i := rfind sep p + 1 in
  let head := take (Z.to_nat i) p in
  if truthy head && negb (String.eqb head (repeat_char sep (String.length head)))
  then rstrip sep head
  else head.

(** [p[p.rfind(sep) + 1:]]. *)
Definition basename (p : string) : string :=
  let i := rfind sep p + 1 in
  drop (Z.to_nat i) p.

(** [os.path.join(a, b)]. *)
Definition join (a b : string) : string :=
  if startswith "/" b then b
  else if negb (truthy a) || endswith_char sep a then a ++ b
  else a ++ "/" ++ b.

Definition is_nil {A : Type} (l : list A) : bool :=
  match l with [] => true | _ :: _ => false end.

(** One turn of the loop of [normpath] over the components. *)
Definition normpath_step (initial_slashes : nat)
           (new_comps : list string) (comp : string) : list string :=
  if String.eqb comp EmptyString || String.eqb comp "." then new_comps
  else if negb (String.eqb comp "..")
          || (Nat.eqb initial_slashes 0 && is_nil new_comps)
          || (negb (is_nil new_comps)
              && String.eqb (last new_comps EmptyString) "..")
  then new_comps ++ [comp]
  else if negb (is_nil new_comps) then removelast new_comps
  else new_comps.

Definition normpath (path : string) : string :=
  if negb (truthy path) then "."
  else
    let initial_slashes : nat :=
      if startswith "/" path then
        if startswith "//" path && negb (startswith "///" path) then 2%nat
        else 1%nat
      else 0%nat in
    let comps := fold_left (normpath_step initial_slashes) (split sep path) [] in
    let path := Py.join "/" comps in
    let path := repeat_char sep initial_slashes ++ path in
    if truthy path then path else ".".

End PosixPath.

(* ===================================================================== *)
(** ** [urllib.parse.urlparse]: the [netloc] of the result *)
(* ===================================================================== *)

Module UrlParse.
Import Py.

Definition scheme_chars : string :=
  "abcdefghijklmnopqrstuvwxyzABCDEFGHIJKLMNOPQRSTUVWXYZ0123456789+-.".

Fixpoint forall_chars (f : ascii -> bool) (s : string) : bool :=
  match s with
  | EmptyString => true
  | String c s' => f c && forall_chars f s'
  end.

(** [url.lstrip(_WHATWG_C0_CONTROL_OR_SPACE)]: code points 0 to 32. *)
Fixpoint lstrip_c0_or_space (s : string) : string :=
  match s with
  | EmptyString => EmptyString
  | String c s' =>
      if (nat_of_ascii c <=? 32)%nat then lstrip_c0_or_space s' else s
  end.

(** The loop over [_UNSAFE_URL_BYTES_TO_REMOVE]: tab, carriage return,
    line feed. *)
Definition remove_unsafe (url : string) : string :=
  let url := replace "009" EmptyString url in
  let url := replace "013" EmptyString url in
  let url := replace "010" EmptyString url in
  url.

(** [c.isascii() and c.isalpha()]. *)
Definition is_ascii_alpha (c : ascii) : bool :=
  let n := nat_of_ascii c in
  ((65 <=? n) && (n <=? 90) || (97 <=? n) && (n <=? 122))%nat.

(** The text left once a scheme has been split off: [url[:i]] is a scheme
    when [i = url.find(':')] is positive, the first character is an ASCII
    letter and every character before the colon is a scheme character. *)
Definition after_scheme (url : string) : string :=
  let i := find ":" url in
  if (0 <? i) && match url with
                 | String c _ => is_ascii_alpha c
                 | EmptyString => false
                 end
  then
    if forall_chars (fun c => mem c scheme_chars) (take (Z.to_nat i) url)
    then drop (Z.to_nat (i + 1)) url
    else url
  else url.

(** [_splitnetloc(url, 2)[0]] on the text after the two slashes: up to
    the first of the delimiters. *)
Fixpoint until_delim (s : string) : string :=
  match s with
  | EmptyString => EmptyString
  | String c s' => if mem c "/?#" then EmptyString else String c (until_delim s')
  end.

Section Netloc.

(** [_check_bracketed_host(hostname)] returns (rather than raises): the
    host is an IPv6 or an IPvFuture literal.  That rests on the
    [ipaddress] module, which is not modelled; its verdict is a
    parameter of the model. *)
Variable bracketed_host_ok : string -> bool.

(** [_check_bracketed_netloc]. *)
Definition check_bracketed_netloc (netloc : string) : result unit :=
  let hostname_and_port := drop (Z.to_nat (rfind "@" netloc + 1)) netloc in
  let i := find "[" hostname_and_port in
  let have_open_br := 0 <=? i in
  let before_bracket := if have_open_br then take (Z.to_nat i) hostname_and_port
                        else hostname_and_port in
  let bracketed := if have_open_br then drop (Z.to_nat (i + 1)) hostname_and_port
                   else EmptyString in
  if have_open_br then
    if truthy before_bracket then Raise ValueError
    else
      let j := find "]" bracketed in
      let hostname := if 0 <=? j then take (Z.to_nat j) bracketed else bracketed in
      let port := if 0 <=? j then drop (Z.to_nat (j + 1)) bracketed else EmptyString in
      if truthy port && negb (startswith ":" port) then Raise ValueError
      else if bracketed_host_ok hostname then Ok tt else Raise ValueError
  else
    let j := find ":" hostname_and_port in
    let hostname := if 0 <=? j then take (Z.to_nat j) hostname_and_port
                    else hostname_and_port in
    if bracketed_host_ok hostname then Ok tt else Raise ValueError.

(** [urlparse(url).netloc].  With code points below 256 the check of
    the authority under NFKC normalisation ([_checknetloc]) never
    raises, and it is left out. *)
Definition netloc (url : string) : result string :=
  let url := lstrip_c0_or_space url in
  let url := remove_unsafe url in
  let url := after_scheme url in
  if String.eqb (take 2 url) "//" then
    let n := until_delim (drop 2 url) in
    if (mem "[" n && negb (mem "]" n)) || (mem "]" n && negb (mem "[" n))
    then Raise ValueError
    else if mem "[" n && mem "]" n
         then bind (check_bracketed_netloc n) (fun _ => Ok n)
         else Ok n
  else Ok EmptyString.

End Netloc.

End UrlParse.

(* ===================================================================== *)
(** ** [mistune.Renderer], the base class *)
(* ===================================================================== *)

Module Mistune.
Import Py.

(** ['%d' % level]. *)
Definition str_of_int (n : Z) : string :=
  DecimalString.NilZero.string_of_int (Z.to_int n).

(** [Renderer.header]: ['<h%d>%s</h%d>\n' % (level, text, level)]. *)
Definition header (text : string) (level : Z) (raw : option string) : string :=
  "<h" ++ str_of_int level ++ ">" ++ text ++ "</h" ++ str_of_int level ++ ">" ++ LF.

End Mistune.

(* ===================================================================== *)
(** ** [record.py] *)
(* ===================================================================== *)

Module Record.

Inductive ArticleState : Type :=
| TO_BE_SYNCED
| CREATED
| SKIPPED
| SYNCED.

Record Article : Type := mkArticle {
  absolute_path : string;
  relative_path : string;
  content_path : option string;
  space : option string;
  confluence_id : option string;
  ancestor_id : option string;
  page_version : option Z;
  state : ArticleState;
  is_directory : bool
}.

Definition name (a : Article) : string :=
  PosixPath.basename (absolute_path a).

Definition absolute_director (a : Article) : string :=
  PosixPath.dirname (absolute_path a).

Definition parent (a : Article) : string :=
  PosixPath.dirname (relative_path a).

Definition INVALID_CHARS : list ascii :=
  [" "; "!"; "#"; "&"; "("; ")"; "*"; ","; "."; ":"; ";"; "<"; ">"; "?"; "@";
   "["; "]"; "^"]%char.

Definition is_markdown (a : Article) : bool :=
  Py.endswith ".md" (name a).

(** [id_label]: the formatted label, then one [replace] per invalid
    character. *)
Definition id_label (a : Article) : Py.result string :=
  Py.bind (Py.format "aid_{}" [relative_path a] [])
    (fun id_label =>
       Py.Ok (fold_left (fun id_label invalid_char =>
                         Py.replace invalid_char "_" id_label)
                      INVALID_CHARS id_label)).

Definition __repr__ (a : Article) : string := relative_path a.

End Record.

(* ===================================================================== *)
(** ** [convert.py]: class [ConfluenceRenderer] *)
(* ===================================================================== *)

Module Convert.
Import Py.
Import Record.

(** The [warning] argument, [Union[bool, str]]. *)
Inductive warning_setting : Type :=
| WBool (b : bool)
| WStr (s : string).

(** [bool(w)]. *)
Definition warning_truthy (w : warning_setting) : bool :=
  match w with
  | WBool b => b
  | WStr s => truthy s
  end.

(** [w == True]. *)
Definition eq_True (w : warning_setting) : bool :=
  match w with
  | WBool b => b
  | WStr _ => false
  end.

(** [html.escape(w)]: only a [str] has [replace]. *)
Definition escape_value (w : warning_setting) : result string :=
  match w with
  | WStr s => Ok (Html.escape s)
  | WBool _ => Raise AttributeError
  end.

Record ConfluenceRenderer : Type := mkRenderer {
  attachments : list string;
  authors : list string;
  has_toc : bool;
  render_toc : bool;
  article : Article;
  warning : warning_setting;
  two_column_layout : bool
}.

(** *** Class attributes *)

Definition full_with_template : string :=
  Textwrap.dedent (lines [
    EmptyString;
    "        <ac:layout-section ac:type=" ++ q "fixed-width" ++ " ac:breakout-mode=" ++ q "default" ++ ">";
    "            <ac:layout-cell>";
    "                {}";
    "            </ac:layout-cell>";
    "        </ac:layout-section>";
    "    "]).

Definition two_column_template : string :=
  Textwrap.dedent (lines [
    EmptyString;
    "        <ac:layout-section ac:type=" ++ q "two_left_sidebar" ++ " ac:breakout-mode=" ++ q "default" ++ ">";
    "            <ac:layout-cell>";
    "                {sidebar}";
    "            </ac:layout-cell><ac:layout-cell>";
    "                {main_content}";
    "            </ac:layout-cell>";
    "        </ac:layout-section>";
    "    "]).

Definition page_template : string :=
  Textwrap.dedent (lines [
    EmptyString;
    "            <ac:layout>";
    "                {}";
    "            </ac:layout>";
    "        "]).

(** *** [__init__] *)

Definition __init__ (article : Article) (authors : option (list string))
           (warning : warning_setting) (render_toc : bool)
           (two_column_layout : bool) : ConfluenceRenderer :=
  let authors := match authors with
                 | None => []
                 | Some l => l
                 end in
  {| attachments := [];
     authors := authors;
     has_toc := false;
     render_toc := render_toc;
     article := article;
     warning := warning;
     two_column_layout := two_column_layout |}.

(** The default values of the keyword arguments. *)
Definition default_authors : option (list string) := Some [].
Definition default_warning : warning_setting := WBool true.
Definition default_render_toc : bool := true.
Definition default_two_column_layout : bool := false.

(** *** [_render_warning]

    The method also prints the banner text on the standard output; the
    output stream is not part of the model. *)

Definition warning_template : string :=
  "<ac:structured-macro ac:name=" ++ q "note" ++ " ac:schema-version=" ++ q "1"
  ++ " ac:macro-id=" ++ q "f5f3fbe6-6a62-4eb2-867b-3e1254cef301"
  ++ "><ac:rich-text-body><p>{copy}</p></ac:rich-text-body></ac:structured-macro>".

Definition default_warning_copy : string :=
  "This page is automatically generated and can be overwritten. Please don't modify it here.".

Definition _render_warning (self : ConfluenceRenderer) : result string :=
  if warning_truthy (warning self) then
    let warning_copy :=
      if eq_True (warning self) then WStr default_warning_copy
      else warning self in
    copy <- escape_value warning_copy ;;
    format warning_template [] [("copy", copy)]
  else Ok EmptyString.

(** *** [header] *)

Definition header (text : string) (level : Z) (raw : option string)
           (self : ConfluenceRenderer) : result (string * ConfluenceRenderer) :=
  let self := {| attachments := attachments self;
                 authors := authors self;
                 has_toc := true;
                 render_toc := render_toc self;
                 article := article self;
                 warning := warning self;
                 two_column_layout := two_column_layout self |} in
  Ok (Mistune.header text level raw, self).

(** *** [render_authors] *)

Definition author_template : string :=
  lines [
    "<ac:structured-macro ac:name=" ++ q "profile-picture" ++ " ac:schema-version=" ++ q "1" ++ ">";
    "                    <ac:parameter ac:name=" ++ q "User" ++ "><ri:user ri:userkey=" ++ q "{user_key}" ++ " /></ac:parameter>";
    "                </ac:structured-macro>&nbsp;";
    "                <ac:link><ri:user ri:userkey=" ++ q "{user_key}" ++ " /></ac:link>"].

Definition render_authors (self : ConfluenceRenderer) : result string :=
  if (0 <? length (authors self))%nat then
    rendered <- mapM (fun user_key => format author_template [] [("user_key", user_key)])
                     (authors self) ;;
    let author_content := join "<br />" rendered in
    format "<h1>Authors</h1><p>{}</p>" [author_content] []
  else Ok EmptyString.

(** *** [layout] *)

Definition toc_literal : string :=
  lines [
    EmptyString;
    "                <h1>Table of Contents</h1>";
    "                <p><ac:structured-macro ac:name=" ++ q "toc" ++ " ac:schema-version=" ++ q "1" ++ ">";
    "                    <ac:parameter ac:name=" ++ q "exclude" ++ ">^(Authors|Table of Contents)$</ac:parameter>";
    "                </ac:structured-macro></p>";
    "            "].

(** The local variable [toc] of [layout]. *)
Definition layout_toc (self : ConfluenceRenderer) : string :=
  if has_toc self && render_toc self then Textwrap.dedent toc_literal
  else EmptyString.

Definition layout (self : ConfluenceRenderer) (content : string) : result string :=
  let toc := layout_toc self in
  authors <- render_authors self ;;
  warning <- _render_warning self ;;
  if two_column_layout self && (truthy toc || truthy authors) then
    warning <- (if truthy warning then format full_with_template [warning] []
                else Ok warning) ;;
    columns <- format two_column_template []
                 [("sidebar", toc ++ authors); ("main_content", content)] ;;
    format page_template [warning ++ columns] []
  else Ok (warning ++ toc ++ authors ++ content).

(** *** [block_code] *)

Definition block_code_template : string :=
  Textwrap.dedent (lines [
    "            <ac:structured-macro ac:name=" ++ q "code" ++ " ac:schema-version=" ++ q "1" ++ ">";
    "                <ac:parameter ac:name=" ++ q "language" ++ ">{l}</ac:parameter>";
    "                <ac:plain-text-body><![CDATA[{c}]]></ac:plain-text-body>";
    "            </ac:structured-macro>";
    "        "]).

(** [lang or '']. *)
Definition or_empty (lang : option string) : string :=
  match lang with
  | Some l => l
  | None => EmptyString
  end.

Definition block_code (code : string) (lang : option string) : result string :=
  format block_code_template [] [("c", code); ("l", or_empty lang)].

(** *** [image]

    The debug line the method logs is not part of the model. *)

Section Image.

(** The verdict of the library on a bracketed host, see [UrlParse]. *)
Variable bracketed_host_ok : string -> bool.

Definition image (src title alt_text : string)
           (self : ConfluenceRenderer) : result (string * ConfluenceRenderer) :=
  netloc <- UrlParse.netloc bracketed_host_ok src ;;
  let is_external := truthy netloc in
  let tag_template := "<ac:image>{image_tag}</ac:image>" in
  image_tag <- format ("<ri:url ri:value=" ++ q "{}" ++ " />") [src] [] ;;
  if negb is_external then
    let image_path :=
      PosixPath.normpath (PosixPath.join (absolute_director (article self)) src) in
    image_tag <- format ("<ri:attachment ri:filename=" ++ q "{}" ++ " />")
                   [PosixPath.basename image_path] [] ;;
    let self := {| attachments := attachments self ++ [image_path];
                   authors := authors self;
                   has_toc := has_toc self;
                   render_toc := render_toc self;
                   article := article self;
                   warning := warning self;
                   two_column_layout := two_column_layout self |} in
    fragment <- format tag_template [] [("image_tag", image_tag)] ;;
    Ok (fragment, self)
  else
    fragment <- format tag_template [] [("image_tag", image_tag)] ;;
    Ok (fragment, self).

End Image.

(** *** [parse]

    The argument is the list [post.readlines()] returns, each line with
    its line feed; opening the file is outside the model, and so is the
    YAML library: [yaml_load] stands for [yaml.load] with the safe loader,
    which returns a document or raises, [yaml_truthy] for the truth value
    of a document and [empty_dict] for the empty mapping. *)

Definition YAML_BOUNDARY : string := "---".

Record parse_state : Type := mkParseState {
  raw_yaml : string;
  markdown : string;
  in_yaml : bool;
  line_count : Z
}.

(** One turn of the loop over the lines. *)
Definition parse_line (st : parse_state) (line : string) : parse_state :=
  let line_count := line_count st + 1 in
  if (line_count =? 1) && String.eqb (strip line) YAML_BOUNDARY then
    mkParseState (raw_yaml st) (markdown st) true line_count
  else if String.eqb (strip line) YAML_BOUNDARY && in_yaml st then
    mkParseState (raw_yaml st) (markdown st) false line_count
  else if in_yaml st then
    mkParseState (raw_yaml st ++ line) (markdown st) (in_yaml st) line_count
  else
    mkParseState (raw_yaml st) (markdown st ++ line) (in_yaml st) line_count.

Definition parse_loop (post : list string) : parse_state :=
  fold_left parse_line post (mkParseState EmptyString EmptyString false 0).

Section Parse.

Variables Y E : Type.
Variable yaml_load : string -> Y + E.
Variable yaml_truthy : Y -> bool.
Variable empty_dict : Y.

Definition parse (post : list string) : (Y * string) + E :=
  let st := parse_loop post in
  match yaml_load (raw_yaml st) with
  | inl front_matter =>
      let markdown := strip (markdown st) in
      inl (if yaml_truthy front_matter then front_matter else empty_dict,
           markdown)
  | inr e => inr e
  end.

End Parse.

End Convert.

(* ===================================================================== *)
(** ** A render pass *)
(* ===================================================================== *)

(** The parser calls the renderer once per construct, in document order,
    on one renderer instance; an exception ends the pass.  [run] keeps the
    fragments returned and the renderer as the callbacks left it. *)

Module Pass.
Import Py.
Import Convert.

Inductive callback : Type :=
| Header (text : string) (level : Z) (raw : option string)
| BlockCode (code : string) (lang : option string)
| Image (src title alt_text : string).

Definition is_header (cb : callback) : bool :=
  match cb with
  | Header _ _ _ => true
  | _ => false
  end.

Section Run.

Variable bracketed_host_ok : string -> bool.

Definition dispatch (cb : callback) (self : ConfluenceRenderer)
: result (string * ConfluenceRenderer) :=
match cb with
| Header text level raw => header text level raw self
| BlockCode code lang =>
    fragment <- block_code code lang ;; Ok (fragment, self)
| Image src title alt_text => image bracketed_host_ok src title alt_text self
end.

Fixpoint run (cbs : list callback) (self : ConfluenceRenderer)
: result (list string * ConfluenceRenderer) :=
match cbs with
| [] => Ok ([], self)
| cb :: cbs' =>
    r <- dispatch cb self ;;
    rs <- run cbs' (snd r) ;;
    Ok (fst r :: fst rs, snd rs)
end.

(** The attachment paths a pass records: one per image callback whose
  source has no authority, in order. *)
Fixpoint local_paths (directory : string) (cbs : list callback) : list string :=
match cbs with
| [] => []
| Image src _ _ :: cbs' =>
    match UrlParse.netloc bracketed_host_ok src with
    | Ok EmptyString =>
        PosixPath.normpath (PosixPath.join directory src)
        :: local_paths directory cbs'
    | _ => local_paths directory cbs'
    end
| _ :: cbs' => local_paths directory cbs'
end.

End Run.

End Pass.

(* ===================================================================== *)
(** ** The fragments, as the specification names them *)
(* ===================================================================== *)

Module Spec.
Import Py.

(** The table-of-contents fragment: a heading and the macro that lists
    the headings of the page, but for the two it is told to leave out. *)
Definition toc_fragment : string :=
  lines [
    EmptyString;
    "<h1>Table of Contents</h1>";
    "<p><ac:structured-macro ac:name=" ++ q "toc" ++ " ac:schema-version=" ++ q "1" ++ ">";
    "    <ac:parameter ac:name=" ++ q "exclude" ++ ">^(Authors|Table of Contents)$</ac:parameter>";
    "</ac:structured-macro></p>";
    EmptyString].

Definition toc_exclude_parameter : string :=
  "<ac:parameter ac:name=" ++ q "exclude" ++ ">^(Authors|Table of Contents)$</ac:parameter>".

(** The note macro around the banner text. *)
Definition note_open : string :=
  "<ac:structured-macro ac:name=" ++ q "note" ++ " ac:schema-version=" ++ q "1"
  ++ " ac:macro-id=" ++ q "f5f3fbe6-6a62-4eb2-867b-3e1254cef301"
  ++ "><ac:rich-text-body><p>".

Definition note_close : string :=
  "</p></ac:rich-text-body></ac:structured-macro>".

Definition banner (text : string) : string :=
  note_open ++ Html.escape text ++ note_close.

(** The banner of each warning setting: none when it is off, the default
    notice for [True], the given text otherwise. *)
Definition warning_banner (w : Convert.warning_setting) : string :=
  match w with
  | Convert.WBool false => EmptyString
  | Convert.WBool true => banner Convert.default_warning_copy
  | Convert.WStr s => if truthy s then banner s else EmptyString
  end.

(** One profile reference: the profile picture of the user, then a link
    to the user. *)
Definition profile_reference (user_key : string) : string :=
  lines [
    "<ac:structured-macro ac:name=" ++ q "profile-picture" ++ " ac:schema-version=" ++ q "1" ++ ">";
    "                    <ac:parameter ac:name=" ++ q "User" ++ "><ri:user ri:userkey=" ++ q user_key ++ " /></ac:parameter>";
    "                </ac:structured-macro>&nbsp;";
    "                <ac:link><ri:user ri:userkey=" ++ q user_key ++ " /></ac:link>"].

(** The author block: nothing for no author, else the heading and the
    references joined by line breaks, in the given order. *)
Definition author_block (authors : list string) : string :=
  match authors with
  | [] => EmptyString
  | _ :: _ =>
      "<h1>Authors</h1><p>" ++ join "<br />" (map profile_reference authors) ++ "</p>"
  end.

(** The full-width section that holds the banner above the columns. *)
Definition full_width (warning : string) : string :=
  lines [
    EmptyString;
    "<ac:layout-section ac:type=" ++ q "fixed-width" ++ " ac:breakout-mode=" ++ q "default" ++ ">";
    "    <ac:layout-cell>";
    "        " ++ warning;
    "    </ac:layout-cell>";
    "</ac:layout-section>";
    EmptyString].

(** The two-column section: the sidebar in the left cell, the body in
    the right one. *)
Definition two_columns (sidebar main_content : string) : string :=
  lines [
    EmptyString;
    "<ac:layout-section ac:type=" ++ q "two_left_sidebar" ++ " ac:breakout-mode=" ++ q "default" ++ ">";
    "    <ac:layout-cell>";
    "        " ++ sidebar;
    "    </ac:layout-cell><ac:layout-cell>";
    "        " ++ main_content;
    "    </ac:layout-cell>";
    "</ac:layout-section>";
    EmptyString].

Definition page (inner : string) : string :=
  lines [
    EmptyString;
    "<ac:layout>";
    "    " ++ inner;
    "</ac:layout>";
    EmptyString].

(** The composition rule: one column when two columns are not asked for
    or the sidebar would be empty; else the banner, if any, full width
    above the two columns. *)
Definition compose (two_column : bool) (warning toc authors body : string) : string :=
  if two_column && (truthy toc || truthy authors) then
    page ((if truthy warning then full_width warning else EmptyString)
          ++ two_columns (toc ++ authors) body)
  else warning ++ toc ++ authors ++ body.

(** The code macro around a payload. *)
Definition code_open (language : string) : string :=
  lines [
    "<ac:structured-macro ac:name=" ++ q "code" ++ " ac:schema-version=" ++ q "1" ++ ">";
    "    <ac:parameter ac:name=" ++ q "language" ++ ">" ++ language ++ "</ac:parameter>";
    "    <ac:plain-text-body><![CDATA["].

Definition code_close : string :=
  lines [
    "]]></ac:plain-text-body>";
    "</ac:structured-macro>";
    EmptyString].

(** The payload a reader of the storage format recovers: the text of the
    first CDATA section, from after its opening mark to before the first
    closing mark. *)
Definition cdata_payload (fragment : string) : option string :=
  match find_str "<![CDATA[" fragment with
  | None => None
  | Some i =>
      let body := drop (i + 9) fragment in
      match find_str "]]>" body with
      | None => None
      | Some j => Some (take j body)
      end
  end.

(** The image references. *)
Definition url_reference (src : string) : string :=
  "<ac:image><ri:url ri:value=" ++ q src ++ " /></ac:image>".

Definition attachment_reference (filename : string) : string :=
  "<ac:image><ri:attachment ri:filename=" ++ q filename ++ " /></ac:image>".

(** Text in which no markup-significant character stands for itself: no
    angle bracket and no quote, and every ampersand opens one of the five
    character references. *)
Fixpoint escaped (s : string) : bool :=
  match s with
  | EmptyString => true
  | String c s' =>
      if Ascii.eqb c "&" then
        (startswith "amp;" s' || startswith "lt;" s' || startswith "gt;" s'
         || startswith "quot;" s' || startswith "#x27;" s') && escaped s'
      else
        negb (mem c ("<>" ++ dq ++ sq)) && escaped s'
  end.

(** Reading the five character references back; [skip] characters of a
    reference just read are still to be passed over. *)
Fixpoint unescape_from (skip : nat) (s : string) : string :=
  match s with
  | EmptyString => EmptyString
  | String c s' =>
      match skip with
      | S k => unescape_from k s'
      | O =>
          if Ascii.eqb c "&" then
            if startswith "amp;" s' then String "&" (unescape_from 4 s')
            else if startswith "lt;" s' then String "<" (unescape_from 3 s')
            else if startswith "gt;" s' then String ">" (unescape_from 3 s')
            else if startswith "quot;" s' then String "034" (unescape_from 5 s')
            else if startswith "#x27;" s' then String "039" (unescape_from 5 s')
            else String c (unescape_from 0 s')
          else String c (unescape_from 0 s')
      end
  end.

Definition unescape (s : string) : string := unescape_from 0 s.

(** [self] with one more attachment. *)
Definition with_attachment (self : Convert.ConfluenceRenderer) (path : string)
  : Convert.ConfluenceRenderer :=
  {| Convert.attachments := Convert.attachments self ++ [path];
     Convert.authors := Convert.authors self;
     Convert.has_toc := Convert.has_toc self;
     Convert.render_toc := Convert.render_toc self;
     Convert.article := Convert.article self;
     Convert.warning := Convert.warning self;
     Convert.two_column_layout := Convert.two_column_layout self |}.

(** [self] with the two-column flag set to [b]. *)
Definition with_two_column (b : bool) (self : Convert.ConfluenceRenderer)
  : Convert.ConfluenceRenderer :=
  {| Convert.attachments := Convert.attachments self;
     Convert.authors := Convert.authors self;
     Convert.has_toc := Convert.has_toc self;
     Convert.render_toc := Convert.render_toc self;
     Convert.article := Convert.article self;
     Convert.warning := Convert.warning self;
     Convert.two_column_layout := b |}.

(** The path [image] records for a local source: the join of the
    directory of the document with the source, normalised. *)
Definition resolved_path (self : Convert.ConfluenceRenderer) (src : string) : string :=
  PosixPath.normpath
    (PosixPath.join
       (PosixPath.dirname (Record.absolute_path (Convert.article self))) src).

(** What one callback may change: the heading flag, set by a header, and
    the attachment list, which an image with a local source extends. *)
Definition step_of (ok : string -> bool) (cb : Pass.callback)
           (self self' : Convert.ConfluenceRenderer) : Prop :=
  Convert.authors self' = Convert.authors self
  /\ Convert.render_toc self' = Convert.render_toc self
  /\ Convert.article self' = Convert.article self
  /\ Convert.warning self' = Convert.warning self
  /\ Convert.two_column_layout self' = Convert.two_column_layout self
  /\ Convert.has_toc self' = Convert.has_toc self || Pass.is_header cb
  /\ Convert.attachments self'
     = (Convert.attachments self
        ++ Pass.local_paths ok
             (Record.absolute_director (Convert.article self)) [cb])%list.

(** What [html.escape] makes of one character. *)
Definition escape_char (c : ascii) : string :=
  if Ascii.eqb c "&" then "&amp;"
  else if Ascii.eqb c "<" then "&lt;"
  else if Ascii.eqb c ">" then "&gt;"
  else if Ascii.eqb c "034" then "&quot;"
  else if Ascii.eqb c "039" then "&#x27;"
  else String c EmptyString.






(** A character an authority may hold with no further condition: none of
    the delimiters, no square bracket, no control character or space. *)
Definition host_char (c : ascii) : bool :=
  negb (mem c "/?#[]") && (32 <? nat_of_ascii c)%nat.

(** The two-column page, cut at its slots. *)
Definition page_open : string := lines [EmptyString; "<ac:layout>"; "    "].

Definition page_close : string := lines [EmptyString; "</ac:layout>"; EmptyString].

Definition columns_open : string :=
  lines [
    EmptyString;
    "<ac:layout-section ac:type=" ++ q "two_left_sidebar" ++ " ac:breakout-mode=" ++ q "default" ++ ">";
    "    <ac:layout-cell>";
    "        "].

Definition columns_mid : string :=
  lines [
    EmptyString;
    "    </ac:layout-cell><ac:layout-cell>";
    "        "].

Definition columns_close : string :=
  lines [
    EmptyString;
    "    </ac:layout-cell>";
    "</ac:layout-section>";
    EmptyString].

(** The two halves of a profile reference. *)
Definition profile_picture (user_key : string) : string :=
  lines [
    "<ac:structured-macro ac:name=" ++ q "profile-picture" ++ " ac:schema-version=" ++ q "1" ++ ">";
    "                    <ac:parameter ac:name=" ++ q "User" ++ "><ri:user ri:userkey=" ++ dq ++ user_key ++ dq ++ " /></ac:parameter>";
    "                </ac:structured-macro>"].

Definition user_link (user_key : string) : string :=
  "<ac:link><ri:user ri:userkey=" ++ dq ++ user_key ++ dq ++ " /></ac:link>".

(** A renderer, a document and a verdict on bracketed hosts to run the
    statements on. *)
Definition sample_article : Record.Article :=
  Record.mkArticle "/docs/posts/intro.md" "posts/intro.md"
    None None None None None Record.TO_BE_SYNCED false.

Definition sample_renderer : Convert.ConfluenceRenderer :=
  Convert.__init__ sample_article (Some ["u1"; "u2"]) (Convert.WBool true) true false.

Definition no_bracketed_host (hostname : string) : bool := false.

(** [sample_renderer] once a header has been processed. *)
Definition sample_after_header : Convert.ConfluenceRenderer :=
  Convert.mkRenderer [] ["u1"; "u2"] true true sample_article
    (Convert.WBool true) false.

(** A renderer with no author, before any header. *)
Definition bare_renderer : Convert.ConfluenceRenderer :=
  Convert.__init__ sample_article None (Convert.WBool true) true true.

(** *** Names for the statements on [parse], on [Article] and on paths *)

(** The lines of a file, put end to end. *)
Definition concat_lines (ls : list string) : string :=
  fold_right append EmptyString ls.

(** A line that reads as the front-matter boundary. *)
Definition is_boundary (line : string) : bool :=
  String.eqb (strip line) Convert.YAML_BOUNDARY.

(** What [parse] returns once the loop has split the lines. *)
Definition parsed {Y E : Type} (yaml_load : string -> Y + E)
           (yaml_truthy : Y -> bool) (empty_dict : Y)
           (raw_yaml markdown : string) : (Y * string) + E :=
  match yaml_load raw_yaml with
  | inl front_matter =>
      inl (if yaml_truthy front_matter then front_matter else empty_dict,
           strip markdown)
  | inr e => inr e
  end.

(** One character of an identifier label. *)
Definition label_char (c : ascii) : ascii :=
  if existsb (Ascii.eqb c) Record.INVALID_CHARS then "_"%char else c.

Fixpoint map_chars (f : ascii -> ascii) (s : string) : string :=
  match s with
  | EmptyString => EmptyString
  | String c s' => String (f c) (map_chars f s')
  end.

(** A character of an authority that is no delimiter and no control
    character or space; a square bracket is allowed. *)
Definition authority_char (c : ascii) : bool :=
  negb (mem c "/?#") && (32 <? nat_of_ascii c)%nat.

(** An absolute path. *)
Definition isabs (p : string) : bool := startswith "/" p.

(** A bare file name: not empty, no separator in it, and neither of the
    two dot names. *)
Definition bare_name (src : string) : bool :=
  truthy src && negb (mem "/" src)
  && negb (String.eqb src ".") && negb (String.eqb src "..").

(** The five characters [html.escape] rewrites. *)
Definition markup_chars : string := "&<>" ++ dq ++ sq.

Definition plain_char (c : ascii) : bool := negb (mem c markup_chars).

(** A component of a normalised path: not empty, not the dot name, no
    separator in it and, below a root ([rooted]), not the dot-dot name. *)
Definition normal_component (rooted : bool) (w : string) : Prop :=
  String.eqb w EmptyString = false
  /\ String.eqb w "." = false
  /\ (rooted = true -> String.eqb w ".." = false)
  /\ mem "/" w = false.

(** A stand-in for the YAML loader to run [parse] with: the document is
    the text itself. *)
Definition text_loader (raw_yaml : string) : string + unit := inl raw_yaml.

(** A renderer with a custom warning text. *)
Definition noted_renderer (text : string) : Convert.ConfluenceRenderer :=
  Convert.__init__ sample_article None (Convert.WStr text) true false.

(** *** What normalising a path yields *)







(** [sample_renderer] with one image recorded, then a second pass. *)
Definition after_first_pass : Convert.ConfluenceRenderer :=
  Convert.mkRenderer ["/docs/posts/img/a.png"] ["u1"; "u2"] true true
    sample_article (Convert.WBool true) false.

Definition after_second_pass : Convert.ConfluenceRenderer :=
  Convert.mkRenderer ["/docs/posts/img/a.png"; "/docs/posts/img/b.png"]
    ["u1"; "u2"] true true sample_article (Convert.WBool true) false.


End Spec.

(* ===================================================================== *)
(** ** Each template, filled in *)
(* ===================================================================== *)

Import Py.
Import Convert.

Lemma append_assoc_r (a b c : string) : (a ++ b) ++ c = a ++ (b ++ c).
Proof.
  induction a as [| x a IH]; simpl.
  - reflexivity.
  - now rewrite IH.
Qed.

Lemma append_nil_r (a : string) : a ++ EmptyString = a.
Proof.
  induction a as [| x a IH]; simpl.
  - reflexivity.
  - now rewrite IH.
Qed.

(** Both sides are brought to one shape: every concatenation nested to
    the right, every literal spelled out. *)
Ltac same_text :=
  cbv [Spec.full_width Spec.two_columns Spec.page Spec.note_open
       Spec.note_close Spec.profile_reference Spec.code_open Spec.code_close
       Spec.toc_fragment Spec.url_reference Spec.attachment_reference
       lines q dq sq LF];
  cbn;
  repeat (rewrite !append_assoc_r; cbn);
  reflexivity.

Lemma full_with_template_filled (warning : string) :
  format full_with_template [warning] [] = Ok (Spec.full_width warning).
Proof. same_text. Qed.

Lemma two_column_template_filled (sidebar main_content : string) :
  format two_column_template []
    [("sidebar", sidebar); ("main_content", main_content)]
  = Ok (Spec.two_columns sidebar main_content).
Proof. same_text. Qed.

Lemma page_template_filled (inner : string) :
  format page_template [inner] [] = Ok (Spec.page inner).
Proof. same_text. Qed.

Lemma warning_template_filled (copy : string) :
  format warning_template [] [("copy", copy)]
  = Ok (Spec.note_open ++ copy ++ Spec.note_close).
Proof. same_text. Qed.

Lemma author_template_filled (user_key : string) :
  format author_template [] [("user_key", user_key)]
  = Ok (Spec.profile_reference user_key).
Proof. same_text. Qed.

Lemma authors_heading_filled (author_content : string) :
  format "<h1>Authors</h1><p>{}</p>" [author_content] []
  = Ok ("<h1>Authors</h1><p>" ++ author_content ++ "</p>").
Proof. same_text. Qed.

Lemma toc_literal_dedented : Textwrap.dedent toc_literal = Spec.toc_fragment.
Proof. vm_compute. reflexivity. Qed.

Lemma block_code_template_filled (code language : string) :
  format block_code_template [] [("c", code); ("l", language)]
  = Ok (Spec.code_open language ++ code ++ Spec.code_close).
Proof. same_text. Qed.

Lemma url_tag_filled (src : string) :
  format ("<ri:url ri:value=" ++ q "{}" ++ " />") [src] []
  = Ok ("<ri:url ri:value=" ++ q src ++ " />").
Proof. same_text. Qed.

Lemma attachment_tag_filled (filename : string) :
  format ("<ri:attachment ri:filename=" ++ q "{}" ++ " />") [filename] []
  = Ok ("<ri:attachment ri:filename=" ++ q filename ++ " />").
Proof. same_text. Qed.

Lemma tag_template_filled (image_tag : string) :
  format "<ac:image>{image_tag}</ac:image>" [] [("image_tag", image_tag)]
  = Ok ("<ac:image>" ++ image_tag ++ "</ac:image>").
Proof. same_text. Qed.

(* ===================================================================== *)
(** ** What each method returns *)
(* ===================================================================== *)

Lemma render_warning_eq (self : ConfluenceRenderer) :
  _render_warning self = Ok (Spec.warning_banner (warning self)).
Proof.
  unfold _render_warning, Spec.warning_banner, Spec.banner.
  destruct (warning self) as [[|] | s]; simpl.
  - apply warning_template_filled.
  - reflexivity.
  - destruct s as [| c s]; simpl.
    + reflexivity.
    + apply warning_template_filled.
Qed.

Lemma mapM_author_template (l : list string) :
  mapM (fun user_key => format author_template [] [("user_key", user_key)]) l
  = Ok (map Spec.profile_reference l).
Proof.
  induction l as [| k l IH]; cbn [mapM map].
  - reflexivity.
  - rewrite author_template_filled, IH. reflexivity.
Qed.

Lemma render_authors_eq (self : ConfluenceRenderer) :
  render_authors self = Ok (Spec.author_block (authors self)).
Proof.
  unfold render_authors, Spec.author_block.
  destruct (authors self) as [| k l] eqn:E.
  - reflexivity.
  - change (0 <? length (k :: l))%nat with true. cbv iota.
    rewrite mapM_author_template. unfold bind.
    apply authors_heading_filled.
Qed.

Lemma layout_toc_eq (self : ConfluenceRenderer) :
  layout_toc self
  = if has_toc self && render_toc self then Spec.toc_fragment else EmptyString.
Proof.
  unfold layout_toc. rewrite toc_literal_dedented. reflexivity.
Qed.

Lemma layout_eq (self : ConfluenceRenderer) (content : string) :
  layout self content
  = Ok (Spec.compose (two_column_layout self)
          (Spec.warning_banner (warning self))
          (layout_toc self)
          (Spec.author_block (authors self))
          content).
Proof.
  unfold layout, Spec.compose.
  rewrite render_authors_eq, render_warning_eq. unfold bind.
  destruct (two_column_layout self
            && (truthy (layout_toc self)
                || truthy (Spec.author_block (authors self)))).
  - rewrite two_column_template_filled.
    destruct (Spec.warning_banner (warning self)) as [| c w]; cbn [truthy].
    + apply page_template_filled.
    + rewrite full_with_template_filled. apply page_template_filled.
  - reflexivity.
Qed.

Lemma block_code_eq (code : string) (lang : option string) :
  block_code code lang
  = Ok (Spec.code_open (or_empty lang) ++ code ++ Spec.code_close).
Proof. apply block_code_template_filled. Qed.

Lemma attachment_reference_text (filename : string) :
  "<ac:image>" ++ ("<ri:attachment ri:filename=" ++ q filename ++ " />") ++ "</ac:image>"
  = Spec.attachment_reference filename.
Proof. same_text. Qed.

Lemma url_reference_text (src : string) :
  "<ac:image>" ++ ("<ri:url ri:value=" ++ q src ++ " />") ++ "</ac:image>"
  = Spec.url_reference src.
Proof. same_text. Qed.

Section ImageFacts.

Variable ok : string -> bool.

Lemma image_eq (src title alt_text : string) (self : ConfluenceRenderer) :
  image ok src title alt_text self
  = match UrlParse.netloc ok src with
    | Raise e => Raise e
    | Ok EmptyString =>
        Ok (Spec.attachment_reference
              (PosixPath.basename (Spec.resolved_path self src)),
            Spec.with_attachment self (Spec.resolved_path self src))
    | Ok (String _ _) => Ok (Spec.url_reference src, self)
    end.
Proof.
  unfold image.
  destruct (UrlParse.netloc ok src) as [n | e]; cbn [bind]; [| reflexivity].
  rewrite url_tag_filled. cbn [bind].
  destruct n as [| c n]; cbn [truthy negb].
  - rewrite attachment_tag_filled. cbn [bind].
    rewrite tag_template_filled. cbn [bind].
    rewrite attachment_reference_text. reflexivity.
  - rewrite tag_template_filled. cbn [bind].
    rewrite url_reference_text. reflexivity.
Qed.

End ImageFacts.

(* ===================================================================== *)
(** ** What a pass leaves in the renderer *)
(* ===================================================================== *)

Section PassFacts.

Variable ok : string -> bool.

Lemma dispatch_step (cb : Pass.callback) (self self' : ConfluenceRenderer)
      (fragment : string) :
  Pass.dispatch ok cb self = Ok (fragment, self') -> Spec.step_of ok cb self self'.
Proof.
  unfold Spec.step_of. destruct cb as [text level raw | code lang | src title alt_text];
    cbn [Pass.dispatch Pass.is_header Pass.local_paths]; intros H.
  - unfold header in H. inversion H; subst; clear H. cbn.
    rewrite orb_true_r, app_nil_r. repeat split; reflexivity.
  - rewrite block_code_eq in H. cbn [bind] in H. inversion H; subst; clear H.
    rewrite orb_false_r, app_nil_r. repeat split; reflexivity.
  - rewrite image_eq in H.
    destruct (UrlParse.netloc ok src) as [[| c n] | e];
      inversion H; subst; clear H; cbn;
      rewrite orb_false_r, ?app_nil_r; repeat split; reflexivity.
Qed.

Lemma run_fields (cbs : list Pass.callback) :
  forall (self self' : ConfluenceRenderer) (fragments : list string),
    Pass.run ok cbs self = Ok (fragments, self') ->
    authors self' = authors self
    /\ render_toc self' = render_toc self
    /\ article self' = article self
    /\ warning self' = warning self
    /\ two_column_layout self' = two_column_layout self
    /\ has_toc self' = has_toc self || existsb Pass.is_header cbs
    /\ attachments self'
       = (attachments self
          ++ Pass.local_paths ok (Record.absolute_director (article self)) cbs)%list.
Proof.
  induction cbs as [| cb cbs IH]; intros self self' fragments H.
  - cbn in H. inversion H; subst; clear H. cbn.
    rewrite orb_false_r, app_nil_r. repeat split; reflexivity.
  - cbn [Pass.run] in H.
    destruct (Pass.dispatch ok cb self) as [[f mid] | e] eqn:D;
      cbn [bind snd fst] in H; [| discriminate].
    destruct (Pass.run ok cbs mid) as [[fs last] | e] eqn:R;
      cbn [bind snd fst] in H; [| discriminate].
    inversion H; subst; clear H.
    apply dispatch_step in D.
    destruct D as (A1 & A2 & A3 & A4 & A5 & A6 & A7).
    apply IH in R.
    destruct R as (B1 & B2 & B3 & B4 & B5 & B6 & B7).
    rewrite B1, B2, B3, B4, B5, B6, B7, A1, A2, A3, A4, A5, A6, A7.
    repeat split; try reflexivity.
    + cbn [existsb]. now rewrite orb_assoc.
    + rewrite <- app_assoc. f_equal.
      destruct cb as [text level raw | code lang | src title alt_text];
        cbn [Pass.local_paths]; try reflexivity.
      destruct (UrlParse.netloc ok src) as [[| c n] | e]; reflexivity.
Qed.

End PassFacts.

(* ===================================================================== *)
(** ** Facts on strings and paths *)
(* ===================================================================== *)

Lemma startswith_append (p b : string) : startswith p (p ++ b) = true.
Proof.
  induction p as [| c p IH]; simpl.
  - reflexivity.
  - now rewrite Ascii.eqb_refl, IH.
Qed.

Lemma find_str_unfold (p s : string) :
  find_str p s
  = if startswith p s then Some O
    else match s with
         | EmptyString => None
         | String _ s' => option_map S (find_str p s')
         end.
Proof. destruct s; reflexivity. Qed.

Lemma contains_middle (p a b : string) : contains p (a ++ p ++ b) = true.
Proof.
  unfold contains. induction a as [| c a IH].
  - cbn [append]. rewrite find_str_unfold, startswith_append. reflexivity.
  - cbn [append]. rewrite find_str_unfold.
    destruct (startswith p (String c (a ++ p ++ b))); [reflexivity |].
    destruct (find_str p (a ++ p ++ b)); [reflexivity | discriminate].
Qed.

Lemma rfind_lower (c : ascii) (s : string) : -1 <= rfind c s.
Proof.
  induction s as [| x s IH]; simpl.
  - lia.
  - destruct (0 <=? rfind c s) eqn:E.
    + apply Z.leb_le in E. lia.
    + destruct (Ascii.eqb x c); lia.
Qed.

(** What follows the last separator holds no separator. *)
Lemma after_last_sep (c : ascii) (s : string) :
  mem c (drop (Z.to_nat (rfind c s + 1)) s) = false.
Proof.
  induction s as [| x s IH]; simpl.
  - reflexivity.
  - pose proof (rfind_lower c s) as L.
    destruct (0 <=? rfind c s) eqn:E.
    + apply Z.leb_le in E.
      replace (Z.to_nat (rfind c s + 1 + 1)) with (S (Z.to_nat (rfind c s + 1)))
        by lia.
      exact IH.
    + apply Z.leb_gt in E.
      assert (R : rfind c s = -1) by lia.
      rewrite R in IH. simpl in IH.
      destruct (Ascii.eqb x c) eqn:X; simpl.
      * exact IH.
      * now rewrite X, IH.
Qed.


(* ===================================================================== *)
(** ** [html.escape], one character at a time *)
(* ===================================================================== *)

Lemma escape_cons (c : ascii) (s : string) :
  Html.escape (String c s) = Spec.escape_char c ++ Html.escape s.
Proof.
  destruct c as [[] [] [] [] [] [] [] []]; reflexivity.
Qed.

Lemma escaped_escape (s : string) : Spec.escaped (Html.escape s) = true.
Proof.
  induction s as [| c s IH].
  - reflexivity.
  - rewrite escape_cons.
    destruct c as [[] [] [] [] [] [] [] []]; cbn; exact IH.
Qed.

Lemma unescape_escape (s : string) : Spec.unescape (Html.escape s) = s.
Proof.
  unfold Spec.unescape. induction s as [| c s IH].
  - reflexivity.
  - rewrite escape_cons.
    destruct c as [[] [] [] [] [] [] [] []]; cbn; now rewrite IH.
Qed.

(* ===================================================================== *)
(** ** Finding a mark in a text *)
(* ===================================================================== *)







Lemma drop_append (a s : string) (n : nat) :
  drop (String.length a + n) (a ++ s) = drop n s.
Proof. induction a as [| y a IH]; [reflexivity | exact IH]. Qed.




(* ===================================================================== *)
(** ** A source that starts with two slashes *)
(* ===================================================================== *)

Lemma replace_append (c : ascii) (by_ a b : string) :
  replace c by_ (a ++ b) = replace c by_ a ++ replace c by_ b.
Proof.
  induction a as [| x a IH]; cbn.
  - reflexivity.
  - rewrite IH. destruct (Ascii.eqb x c).
    + now rewrite append_assoc_r.
    + reflexivity.
Qed.

Lemma replace_absent (c : ascii) (by_ s : string) :
  mem c s = false -> replace c by_ s = s.
Proof.
  induction s as [| x s IH]; cbn; intros H.
  - reflexivity.
  - apply orb_false_iff in H as [H1 H2]. rewrite H1. now rewrite IH.
Qed.

Lemma forall_chars_mem (f : ascii -> bool) (c : ascii) (s : string) :
  UrlParse.forall_chars f s = true -> f c = false -> mem c s = false.
Proof.
  induction s as [| x s IH]; cbn; intros H F.
  - reflexivity.
  - apply andb_true_iff in H as [H1 H2].
    destruct (Ascii.eqb x c) eqn:E.
    + apply Ascii.eqb_eq in E. congruence.
    + now apply IH.
Qed.

Lemma until_delim_host (host rest : string) :
  UrlParse.forall_chars Spec.host_char host = true ->
  UrlParse.until_delim (host ++ "/" ++ rest) = host.
Proof.
  induction host as [| x host IH]; intros H.
  - reflexivity.
  - cbn [UrlParse.forall_chars] in H. apply andb_true_iff in H as [H1 H2].
    change (String x host ++ "/" ++ rest) with (String x (host ++ "/" ++ rest)).
    cbn [UrlParse.until_delim].
    assert (D : mem x "/?#" = false).
    { unfold Spec.host_char in H1. apply andb_true_iff in H1 as [H1 _].
      apply negb_true_iff in H1. cbn [mem] in H1 |- *.
      apply orb_false_iff in H1 as [A1 H1].
      apply orb_false_iff in H1 as [A2 H1].
      apply orb_false_iff in H1 as [A3 H1].
      now rewrite A1, A2, A3. }
    rewrite D. now rewrite IH.
Qed.

(** A source of the form [//host/...] has the authority [host], with no
    scheme read off it. *)
Lemma protocol_relative_netloc (ok : string -> bool) (host rest : string) :
  UrlParse.forall_chars Spec.host_char host = true ->
  UrlParse.netloc ok ("//" ++ host ++ "/" ++ rest) = Ok host.
Proof.
  intros Hh.
  assert (M : forall c, Spec.host_char c = false -> mem c host = false)
    by (intros c; now apply forall_chars_mem).
  unfold UrlParse.netloc.
  change (UrlParse.lstrip_c0_or_space ("//" ++ host ++ "/" ++ rest))
    with ("//" ++ host ++ "/" ++ rest).
  assert (R : UrlParse.remove_unsafe ("//" ++ host ++ "/" ++ rest)
              = "//" ++ host ++ "/" ++ UrlParse.remove_unsafe rest).
  { unfold UrlParse.remove_unsafe.
    rewrite !(replace_append "009").
    rewrite (replace_absent "009" _ host) by (apply M; reflexivity).
    rewrite !(replace_append "013").
    rewrite (replace_absent "013" _ host) by (apply M; reflexivity).
    rewrite !(replace_append "010").
    rewrite (replace_absent "010" _ host) by (apply M; reflexivity).
    reflexivity. }
  rewrite R. clear R.
  assert (S : UrlParse.after_scheme ("//" ++ host ++ "/" ++ UrlParse.remove_unsafe rest)
              = "//" ++ host ++ "/" ++ UrlParse.remove_unsafe rest).
  { unfold UrlParse.after_scheme.
    change ("//" ++ host ++ "/" ++ UrlParse.remove_unsafe rest)
      with (String "/" (String "/" (host ++ "/" ++ UrlParse.remove_unsafe rest))).
    cbv beta iota. change (UrlParse.is_ascii_alpha "/") with false.
    now rewrite andb_false_r. }
  rewrite S. clear S.
  change (take 2 ("//" ++ host ++ "/" ++ UrlParse.remove_unsafe rest)) with "//".
  change (drop 2 ("//" ++ host ++ "/" ++ UrlParse.remove_unsafe rest))
    with (host ++ "/" ++ UrlParse.remove_unsafe rest).
  cbn [String.eqb Ascii.eqb Bool.eqb].
  rewrite (until_delim_host _ _ Hh).
  rewrite (M "["%char) by reflexivity. rewrite (M "]"%char) by reflexivity.
  reflexivity.
Qed.

(* ===================================================================== *)
(** ** The page, cut at its slots *)
(* ===================================================================== *)

Lemma two_column_page_cut (above toc authors body : string) :
  Spec.page (above ++ Spec.two_columns (toc ++ authors) body)
  = (Spec.page_open ++ above ++ Spec.columns_open) ++ toc
    ++ (authors ++ Spec.columns_mid ++ body ++ Spec.columns_close ++ Spec.page_close).
Proof.
  cbv [Spec.page Spec.two_columns Spec.page_open Spec.page_close
       Spec.columns_open Spec.columns_mid Spec.columns_close lines q dq LF].
  cbn. repeat (rewrite !append_assoc_r; cbn). reflexivity.
Qed.

Lemma profile_reference_cut (user_key : string) :
  Spec.profile_reference user_key
  = Spec.profile_picture user_key ++ "&nbsp;" ++ LF ++ "                "
    ++ Spec.user_link user_key.
Proof.
  cbv [Spec.profile_reference Spec.profile_picture Spec.user_link lines q dq LF].
  cbn. repeat (rewrite !append_assoc_r; cbn). reflexivity.
Qed.

Lemma compose_contains_toc (two_column : bool) (warning toc authors body : string) :
  contains toc (Spec.compose two_column warning toc authors body) = true.
Proof.
  unfold Spec.compose.
  destruct (two_column && (truthy toc || truthy authors)).
  - rewrite two_column_page_cut. apply contains_middle.
  - apply contains_middle.
Qed.

Lemma truthy_false (s : string) : truthy s = false <-> s = EmptyString.
Proof. destruct s; cbn; split; congruence. Qed.

(* ===================================================================== *)
(** ** The two-column flag and a pass *)
(* ===================================================================== *)

Section FlagFacts.

Variable ok : string -> bool.

(** No callback reads the two-column flag. *)
Lemma dispatch_two_column (b : bool) (cb : Pass.callback) (self : ConfluenceRenderer) :
  Pass.dispatch ok cb (Spec.with_two_column b self)
  = match Pass.dispatch ok cb self with
    | Ok (fragment, self') => Ok (fragment, Spec.with_two_column b self')
    | Raise e => Raise e
    end.
Proof.
  destruct cb as [text level raw | code lang | src title alt_text];
    cbn [Pass.dispatch].
  - reflexivity.
  - rewrite block_code_eq. reflexivity.
  - rewrite !image_eq.
    destruct (UrlParse.netloc ok src) as [[| c n] | e]; reflexivity.
Qed.

Lemma run_two_column (b : bool) (cbs : list Pass.callback) :
  forall self : ConfluenceRenderer,
    Pass.run ok cbs (Spec.with_two_column b self)
    = match Pass.run ok cbs self with
      | Ok (fragments, self') => Ok (fragments, Spec.with_two_column b self')
      | Raise e => Raise e
      end.
Proof.
  induction cbs as [| cb cbs IH]; intros self.
  - reflexivity.
  - cbn [Pass.run]. rewrite dispatch_two_column.
    destruct (Pass.dispatch ok cb self) as [[f mid] | e]; cbn [bind fst snd];
      [| reflexivity].
    rewrite IH.
    destruct (Pass.run ok cbs mid) as [[fs last] | e]; reflexivity.
Qed.

End FlagFacts.

(** With an empty sidebar the flag does not show in the page. *)
Lemma layout_flag_off (self : ConfluenceRenderer) (content : string) :
  layout_toc self = EmptyString ->
  render_authors self = Ok EmptyString ->
  layout self content = layout (Spec.with_two_column false self) content.
Proof.
  intros T A. rewrite render_authors_eq in A. inversion A as [B].
  rewrite !layout_eq.
  change (layout_toc (Spec.with_two_column false self)) with (layout_toc self).
  cbn [Spec.with_two_column two_column_layout warning authors].
  rewrite T, B. unfold Spec.compose. cbn [truthy orb].
  now rewrite andb_false_r.
Qed.

(* ===================================================================== *)
(** ** The layout *)
(* ===================================================================== *)

(** C1. After a render pass on a fresh renderer, the table-of-contents
    fragment [layout] puts on the page is there exactly when [render_toc]
    is set and a header callback was processed in the pass.  When it is
    there, it is the fixed fragment, found in the page, and it carries the
    exclude parameter for the headings Authors and Table of Contents; when
    it is not, the page is made of the banner, the author block and the
    body alone, so a pass with no header gives no table of contents
    whatever [render_toc] is. *)
Theorem toc_iff_enabled_and_heading
        (ok : string -> bool) (article : Record.Article)
        (authors : option (list string)) (warning : warning_setting)
        (render_toc two_column : bool) (cbs : list Pass.callback)
        (fragments : list string) (self : ConfluenceRenderer) (content : string) :
  Pass.run ok cbs (__init__ article authors warning render_toc two_column)
  = Ok (fragments, self) ->
  (layout_toc self <> EmptyString
   <-> render_toc = true /\ exists cb, In cb cbs /\ Pass.is_header cb = true)
  /\ (layout_toc self = Spec.toc_fragment \/ layout_toc self = EmptyString)
  /\ layout self content
     = Ok (Spec.compose two_column (Spec.warning_banner warning)
             (layout_toc self)
             (Spec.author_block (Convert.authors self)) content)
  /\ (layout_toc self <> EmptyString ->
      exists page, layout self content = Ok page
                   /\ contains Spec.toc_fragment page = true)
  /\ (existsb Pass.is_header cbs = false -> layout_toc self = EmptyString)
  /\ contains Spec.toc_exclude_parameter Spec.toc_fragment = true.
Proof.
  intros H. apply run_fields in H.
  destruct H as (_ & Hr & _ & Hw & Ht & Hh & _).
  cbn in Hr, Hw, Ht, Hh.
  assert (T : layout_toc self
              = if existsb Pass.is_header cbs && render_toc
                then Spec.toc_fragment else EmptyString).
  { rewrite layout_toc_eq, Hh, Hr. reflexivity. }
  assert (L : layout self content
              = Ok (Spec.compose two_column (Spec.warning_banner warning)
                      (layout_toc self)
                      (Spec.author_block (Convert.authors self)) content)).
  { rewrite layout_eq, Hw, Ht. reflexivity. }
  split; [| split; [| split; [| split; [| split]]]].
  - split.
    + intros N. rewrite T in N. split.
      * destruct render_toc; [reflexivity |].
        rewrite andb_false_r in N. congruence.
      * apply existsb_exists.
        destruct (existsb Pass.is_header cbs); [reflexivity |].
        cbn in N. congruence.
    + intros [R (cb & I & E)]. rewrite T.
      assert (X : existsb Pass.is_header cbs = true)
        by (apply existsb_exists; now exists cb).
      rewrite X, R. discriminate.
  - rewrite T. destruct (existsb Pass.is_header cbs && render_toc); auto.
  - exact L.
  - intros N. eexists. split; [exact L |].
    assert (E : layout_toc self = Spec.toc_fragment).
    { rewrite T in N |- *.
      destruct (existsb Pass.is_header cbs && render_toc); congruence. }
    rewrite <- E at 1. apply compose_contains_toc.
  - intros Z. rewrite T, Z. reflexivity.
  - vm_compute. reflexivity.
Qed.

(** C5. [layout] puts the page together in one of two ways.  With the
    two-column flag off, or with the table of contents and the author
    block both empty, the page is the banner, the table of contents, the
    author block and the body, in that order.  Otherwise it is a layout
    whose first section, when there is a banner, holds the banner at full
    width, and whose two-column section holds the table of contents then
    the author block in the left cell and the body in the right cell. *)
Theorem layout_composition (self : ConfluenceRenderer) (content : string) :
  let banner := Spec.warning_banner (warning self) in
  let toc := layout_toc self in
  let block := Spec.author_block (authors self) in
  _render_warning self = Ok banner
  /\ render_authors self = Ok block
  /\ layout self content
     = Ok (if negb (two_column_layout self)
              || (negb (truthy toc) && negb (truthy block))
           then banner ++ toc ++ block ++ content
           else Spec.page_open
                ++ (if truthy banner then Spec.full_width banner else EmptyString)
                ++ Spec.columns_open ++ toc ++ block
                ++ Spec.columns_mid ++ content
                ++ Spec.columns_close ++ Spec.page_close).
Proof.
  cbv zeta. split; [apply render_warning_eq |].
  split; [apply render_authors_eq |].
  rewrite layout_eq. unfold Spec.compose.
  destruct (two_column_layout self); cbn [negb orb andb]; [| reflexivity].
  destruct (truthy (layout_toc self)); cbn [negb orb andb].
  - rewrite two_column_page_cut. now rewrite !append_assoc_r.
  - destruct (truthy (Spec.author_block (authors self))); cbn [negb].
    + rewrite two_column_page_cut. now rewrite !append_assoc_r.
    + reflexivity.
Qed.

(** C6. Two-column fallback: when a pass with the two-column flag on
    leaves the table of contents and the author block both empty, the
    same pass with the flag off returns the same fragments, and the two
    pages are the same page, the banner followed by the body; no error is
    raised. *)
Theorem two_column_fallback
        (ok : string -> bool) (article : Record.Article)
        (authors : option (list string)) (warning : warning_setting)
        (render_toc : bool) (cbs : list Pass.callback)
        (fragments : list string) (self : ConfluenceRenderer) (content : string) :
  Pass.run ok cbs (__init__ article authors warning render_toc true)
  = Ok (fragments, self) ->
  layout_toc self = EmptyString ->
  render_authors self = Ok EmptyString ->
  exists self' : ConfluenceRenderer,
    Pass.run ok cbs (__init__ article authors warning render_toc false)
    = Ok (fragments, self')
    /\ layout self content = layout self' content
    /\ layout self content = Ok (Spec.warning_banner warning ++ content).
Proof.
  intros H T A. exists (Spec.with_two_column false self).
  split; [| split].
  - change (__init__ article authors warning render_toc false)
      with (Spec.with_two_column false
              (__init__ article authors warning render_toc true)).
    rewrite run_two_column, H. reflexivity.
  - now apply layout_flag_off.
  - apply run_fields in H. destruct H as (_ & _ & _ & Hw & _).
    cbn in Hw. rewrite <- Hw.
    rewrite render_authors_eq in A. inversion A as [B].
    rewrite layout_eq, T, B. unfold Spec.compose.
    cbn [truthy orb]. rewrite andb_false_r. reflexivity.
Qed.

(** C7. The banner [_render_warning] returns: nothing when the setting is
    [False]; the note macro around the escaped default notice when it is
    [True]; for a string, the note macro around the escaped string (and
    nothing for the empty string).  The escaped text holds no angle bracket
    and no quote, each of its ampersands opens a character reference, and
    reading the references back gives the configured text. *)
Theorem warning_banner_cases (self : ConfluenceRenderer) :
  match warning self with
  | WBool false => _render_warning self = Ok EmptyString
  | WBool true =>
      _render_warning self
      = Ok (Spec.note_open ++ Html.escape default_warning_copy ++ Spec.note_close)
      /\ Spec.escaped (Html.escape default_warning_copy) = true
      /\ Spec.unescape (Html.escape default_warning_copy) = default_warning_copy
  | WStr text =>
      _render_warning self
      = Ok (if truthy text
            then Spec.note_open ++ Html.escape text ++ Spec.note_close
            else EmptyString)
      /\ Spec.escaped (Html.escape text) = true
      /\ Spec.unescape (Html.escape text) = text
  end.
Proof.
  rewrite render_warning_eq.
  destruct (warning self) as [[|] | text]; cbn [Spec.warning_banner].
  - split; [reflexivity | split; [apply escaped_escape | apply unescape_escape]].
  - reflexivity.
  - split; [reflexivity | split; [apply escaped_escape | apply unescape_escape]].
Qed.

(** C8. With no author, [render_authors] returns nothing and the page has
    no author block.  Otherwise the block is the heading Authors followed
    by one profile reference per identifier, in the given order, joined by
    line breaks; a reference is the profile-picture macro of the user
    followed by a link to the user. *)
Theorem author_block_listing (self : ConfluenceRenderer) (content : string) :
  match authors self with
  | [] =>
      render_authors self = Ok EmptyString
      /\ layout self content
         = Ok (Spec.compose (two_column_layout self)
                 (Spec.warning_banner (warning self)) (layout_toc self)
                 EmptyString content)
  | _ :: _ =>
      render_authors self
      = Ok ("<h1>Authors</h1><p>"
            ++ join "<br />" (map Spec.profile_reference (authors self))
            ++ "</p>")
  end
  /\ forall user_key : string,
      Spec.profile_reference user_key
      = Spec.profile_picture user_key ++ "&nbsp;" ++ LF ++ "                "
        ++ Spec.user_link user_key.
Proof.
  split; [| apply profile_reference_cut].
  pose proof (render_authors_eq self) as R.
  pose proof (layout_eq self content) as L.
  destruct (authors self) as [| k l].
  - split; [exact R | exact L].
  - exact R.
Qed.

(** C9. A renderer made with [authors=None] is the renderer made with the
    empty list, and after any pass on it [render_authors] returns nothing
    and the page has no author block. *)
Theorem init_authors_none
        (ok : string -> bool) (article : Record.Article)
        (warning : warning_setting) (render_toc two_column : bool)
        (cbs : list Pass.callback) (fragments : list string)
        (self : ConfluenceRenderer) (content : string) :
  Pass.run ok cbs (__init__ article None warning render_toc two_column)
  = Ok (fragments, self) ->
  __init__ article None warning render_toc two_column
  = __init__ article (Some []) warning render_toc two_column
  /\ render_authors self = Ok EmptyString
  /\ layout self content
     = Ok (Spec.compose two_column (Spec.warning_banner warning)
             (layout_toc self) EmptyString content).
Proof.
  intros H. apply run_fields in H.
  destruct H as (Ha & _ & _ & Hw & Ht & _ & _).
  cbn in Ha, Hw, Ht.
  split; [reflexivity |].
  rewrite render_authors_eq, layout_eq, Ha, Hw, Ht. split; reflexivity.
Qed.

(** C10. A warning setting that is the empty string gives no banner: what
    [_render_warning] returns, and the page, are those of the setting
    [False]. *)
Theorem empty_warning_disables
        (attachments authors : list string) (has_toc render_toc : bool)
        (article : Record.Article) (two_column : bool) (content : string) :
  let renderer w :=
    mkRenderer attachments authors has_toc render_toc article w two_column in
  _render_warning (renderer (WStr EmptyString)) = Ok EmptyString
  /\ _render_warning (renderer (WStr EmptyString))
     = _render_warning (renderer (WBool false))
  /\ layout (renderer (WStr EmptyString)) content
     = layout (renderer (WBool false)) content.
Proof.
  cbv zeta. rewrite !render_warning_eq, !layout_eq. cbn.
  repeat split; reflexivity.
Qed.

(* ===================================================================== *)
(** ** Images and attachments *)
(* ===================================================================== *)


(** C3. For a source with an authority, [image] leaves the renderer as it
    was, the attachment list with it, and returns the reference to the
    source as it was given.  A source [//host/...] with no scheme is such
    a source. *)
Theorem image_external_frame
        (ok : string -> bool) (self : ConfluenceRenderer)
        (src title alt_text netloc : string) :
  UrlParse.netloc ok src = Ok netloc ->
  netloc <> EmptyString ->
  image ok src title alt_text self = Ok (Spec.url_reference src, self)
  /\ Spec.url_reference src
     = "<ac:image><ri:url ri:value=" ++ dq ++ src ++ dq ++ " /></ac:image>"
  /\ forall host rest : string,
      host <> EmptyString ->
      UrlParse.forall_chars Spec.host_char host = true ->
      image ok ("//" ++ host ++ "/" ++ rest) title alt_text self
      = Ok (Spec.url_reference ("//" ++ host ++ "/" ++ rest), self).
Proof.
  intros N E. split; [| split].
  - rewrite image_eq, N. destruct netloc; [congruence | reflexivity].
  - cbv [Spec.url_reference q]. now rewrite !append_assoc_r.
  - intros host rest Hne Hh.
    rewrite image_eq, (protocol_relative_netloc ok host rest Hh).
    destruct host; [congruence | reflexivity].
Qed.

(* ===================================================================== *)
(** ** Code blocks *)
(* ===================================================================== *)



(** An opening mark in the language tag is read as the start of the
    payload. *)
Example cdata_mark_in_language :
  exists fragment : string,
    block_code "x" (Some "<![CDATA[") = Ok fragment
    /\ Spec.cdata_payload fragment <> Some "x".
Proof.
  eexists. split; [apply block_code_eq | vm_compute; discriminate].
Qed.

(* ===================================================================== *)
(** ** The statements, run on a document *)
(* ===================================================================== *)

Lemma toc_iff_enabled_and_heading_witness :
  Pass.run Spec.no_bracketed_host [Pass.Header "Title" 1 None] Spec.sample_renderer
  = Ok (["<h1>Title</h1>" ++ LF], Spec.sample_after_header)
  /\ exists page : string,
      layout Spec.sample_after_header "text" = Ok page
      /\ contains Spec.toc_fragment page = true.
Proof.
  split; [reflexivity |].
  destruct (toc_iff_enabled_and_heading
              Spec.no_bracketed_host Spec.sample_article (Some ["u1"; "u2"])
              (WBool true) true false [Pass.Header "Title" 1 None]
              ["<h1>Title</h1>" ++ LF] Spec.sample_after_header "text" eq_refl)
    as (_ & _ & _ & C & _).
  apply C. vm_compute. discriminate.
Defined.

Lemma two_column_fallback_witness :
  Pass.run Spec.no_bracketed_host [Pass.BlockCode "x = 1" (Some "py")]
    Spec.bare_renderer
  = Ok ([Spec.code_open "py" ++ "x = 1" ++ Spec.code_close], Spec.bare_renderer)
  /\ layout_toc Spec.bare_renderer = EmptyString
  /\ render_authors Spec.bare_renderer = Ok EmptyString
  /\ layout Spec.bare_renderer "text"
     = Ok (Spec.warning_banner (WBool true) ++ "text").
Proof.
  split; [reflexivity | split; [reflexivity | split; [reflexivity |]]].
  destruct (two_column_fallback
              Spec.no_bracketed_host Spec.sample_article None (WBool true) true
              [Pass.BlockCode "x = 1" (Some "py")]
              [Spec.code_open "py" ++ "x = 1" ++ Spec.code_close]
              Spec.bare_renderer "text" eq_refl eq_refl eq_refl)
    as (self' & _ & _ & P).
  exact P.
Defined.

Lemma init_authors_none_witness :
  Pass.run Spec.no_bracketed_host
    [Pass.Image "https://cdn.example.com/a.png" "t" "a"] Spec.bare_renderer
  = Ok ([Spec.url_reference "https://cdn.example.com/a.png"], Spec.bare_renderer)
  /\ render_authors Spec.bare_renderer = Ok EmptyString.
Proof.
  split; [reflexivity |].
  exact (proj1 (proj2 (init_authors_none
                         Spec.no_bracketed_host Spec.sample_article (WBool true)
                         true true
                         [Pass.Image "https://cdn.example.com/a.png" "t" "a"]
                         [Spec.url_reference "https://cdn.example.com/a.png"]
                         Spec.bare_renderer "text" eq_refl))).
Defined.

Lemma image_external_frame_witness :
  UrlParse.netloc Spec.no_bracketed_host "//host/x.png" = Ok "host"
  /\ "host" <> EmptyString
  /\ image Spec.no_bracketed_host "//host/x.png" "t" "a" Spec.sample_renderer
     = Ok (Spec.url_reference "//host/x.png", Spec.sample_renderer).
Proof.
  split; [reflexivity | split; [discriminate |]].
  refine (proj1 (image_external_frame
                   Spec.no_bracketed_host Spec.sample_renderer
                   "//host/x.png" "t" "a" "host" eq_refl _)).
  discriminate.
Defined.


(** The page of the sample document: the default notice, the table of
    contents, the author block of [u1] then [u2], the body. *)
Example sample_page :
  layout Spec.sample_after_header ("<h1>Title</h1>" ++ LF ++ "<p>text</p>" ++ LF)
  = Ok (Spec.banner default_warning_copy
        ++ Spec.toc_fragment
        ++ Spec.author_block ["u1"; "u2"]
        ++ "<h1>Title</h1>" ++ LF ++ "<p>text</p>" ++ LF).
Proof. rewrite layout_eq. reflexivity. Qed.

(** With no header processed the page holds no table-of-contents macro,
    though [render_toc] is set. *)
Example sample_page_no_header :
  exists page : string,
    layout Spec.sample_renderer ("<p>text</p>" ++ LF) = Ok page
    /\ contains Spec.toc_exclude_parameter page = false.
Proof. eexists. split; [apply layout_eq | vm_compute; reflexivity]. Qed.

(** An image on a host: a reference to the address, nothing to attach. *)
Example image_on_host :
  image Spec.no_bracketed_host "https://cdn.example.com/a.png" "t" "a"
    Spec.sample_renderer
  = Ok (Spec.url_reference "https://cdn.example.com/a.png", Spec.sample_renderer)
  /\ attachments Spec.sample_renderer = [].
Proof. rewrite image_eq. split; reflexivity. Qed.

(** An authority with one square bracket: the library refuses the source
    and [image] raises, the renderer untouched. *)
Example image_bad_authority :
  image Spec.no_bracketed_host "//[host/x.png" "t" "a" Spec.sample_renderer
  = Raise ValueError.
Proof. rewrite image_eq. reflexivity. Qed.

(** The paths recorded in a pass: one per local image, repeats kept. *)
Example attachments_of_a_pass :
  exists (fragments : list string) (self : ConfluenceRenderer),
    Pass.run Spec.no_bracketed_host
      [Pass.Image "img/a.png" "t" "a";
       Pass.Image "//host/b.png" "t" "a";
       Pass.Image "./img/../img/a.png" "t" "a"]
      Spec.sample_renderer
    = Ok (fragments, self)
    /\ attachments self = ["/docs/posts/img/a.png"; "/docs/posts/img/a.png"].
Proof.
  eexists. eexists. split; [vm_compute; reflexivity | reflexivity].
Qed.

(* ===================================================================== *)
(** ** [parse]: front matter and body *)
(* ===================================================================== *)

(** Outside the front matter, after the first line, every line goes to the
    body, a boundary line too. *)
Lemma parse_loop_body (ls : list string) :
  forall st : parse_state,
    in_yaml st = false ->
    1 <= line_count st ->
    fold_left parse_line ls st
    = mkParseState (raw_yaml st) (markdown st ++ Spec.concat_lines ls) false
        (line_count st + Z.of_nat (length ls)).
Proof.
  induction ls as [| l ls IH]; intros st Hy Hc.
  - cbn. rewrite append_nil_r, Z.add_0_r. destruct st; cbn in *. now subst.
  - cbn [fold_left]. rewrite IH.
    + unfold parse_line. rewrite Hy.
      replace (line_count st + 1 =? 1) with false
        by (symmetry; apply Z.eqb_neq; lia).
      rewrite andb_false_r. cbn [andb raw_yaml markdown line_count].
      rewrite append_assoc_r. cbn [Spec.concat_lines fold_right length].
      f_equal. lia.
    + unfold parse_line. rewrite Hy.
      replace (line_count st + 1 =? 1) with false
        by (symmetry; apply Z.eqb_neq; lia).
      now rewrite andb_false_r.
    + unfold parse_line. rewrite Hy.
      replace (line_count st + 1 =? 1) with false
        by (symmetry; apply Z.eqb_neq; lia).
      rewrite andb_false_r. cbn. lia.
Qed.

(** Inside the front matter, after the first line, every line that is no
    boundary goes to the metadata. *)
Lemma parse_loop_yaml (ls : list string) :
  forall st : parse_state,
    in_yaml st = true ->
    1 <= line_count st ->
    forallb (fun l => negb (Spec.is_boundary l)) ls = true ->
    fold_left parse_line ls st
    = mkParseState (raw_yaml st ++ Spec.concat_lines ls) (markdown st) true
        (line_count st + Z.of_nat (length ls)).
Proof.
  induction ls as [| l ls IH]; intros st Hy Hc Hb.
  - cbn. rewrite append_nil_r, Z.add_0_r. destruct st; cbn in *. now subst.
  - cbn [forallb] in Hb. apply andb_true_iff in Hb as [Hl Hb].
    apply negb_true_iff in Hl. unfold Spec.is_boundary in Hl.
    assert (P : parse_line st l
                = mkParseState (raw_yaml st ++ l) (markdown st) true
                    (line_count st + 1)).
    { unfold parse_line. rewrite Hl, Hy. now rewrite andb_false_r. }
    cbn [fold_left]. rewrite P, IH; cbn [in_yaml line_count raw_yaml markdown];
      [| reflexivity | lia | exact Hb].
    rewrite append_assoc_r. cbn [Spec.concat_lines fold_right length].
    f_equal. lia.
Qed.

(** X1. A file whose first line is not the boundary has no front matter:
    [parse] hands the empty text to the YAML loader and returns the whole
    file, stripped, as the body; boundary lines further down stay in the
    body. *)
Theorem parse_without_front_matter
        (Y E : Type) (yaml_load : string -> Y + E) (yaml_truthy : Y -> bool)
        (empty_dict : Y) (post : list string) :
  match post with
  | [] => false
  | first :: _ => Spec.is_boundary first
  end = false ->
  parse Y E yaml_load yaml_truthy empty_dict post
  = Spec.parsed yaml_load yaml_truthy empty_dict
      EmptyString (Spec.concat_lines post).
Proof.
  intros H. unfold parse, Spec.parsed, parse_loop.
  destruct post as [| first rest].
  - reflexivity.
  - cbn [fold_left]. unfold Spec.is_boundary in H.
    assert (P : parse_line (mkParseState EmptyString EmptyString false 0) first
                = mkParseState EmptyString first false 1).
    { unfold parse_line. cbn [line_count in_yaml raw_yaml markdown].
      rewrite H. reflexivity. }
    rewrite P, parse_loop_body by (cbn; (reflexivity || lia)).
    reflexivity.
Qed.

(** X2. A file that opens with a boundary line and closes the front matter
    with a second one: the lines between the two are the metadata handed to
    the YAML loader, the lines after the second are the body, stripped, and
    the two boundary lines are in neither. *)
Theorem parse_with_front_matter
        (Y E : Type) (yaml_load : string -> Y + E) (yaml_truthy : Y -> bool)
        (empty_dict : Y) (first closing : string) (meta body : list string) :
  Spec.is_boundary first = true ->
  forallb (fun l => negb (Spec.is_boundary l)) meta = true ->
  Spec.is_boundary closing = true ->
  parse Y E yaml_load yaml_truthy empty_dict
    (first :: meta ++ closing :: body)%list
  = Spec.parsed yaml_load yaml_truthy empty_dict
      (Spec.concat_lines meta) (Spec.concat_lines body).
Proof.
  intros Hf Hm Hc. unfold parse, Spec.parsed, parse_loop.
  cbn [fold_left]. unfold Spec.is_boundary in Hf, Hc.
  assert (P : parse_line (mkParseState EmptyString EmptyString false 0) first
              = mkParseState EmptyString EmptyString true 1).
  { unfold parse_line. cbn [line_count in_yaml raw_yaml markdown].
    rewrite Hf. reflexivity. }
  rewrite P, fold_left_app.
  rewrite (parse_loop_yaml meta (mkParseState EmptyString EmptyString true 1))
    by (cbn; (reflexivity || lia || exact Hm)).
  cbn [fold_left raw_yaml markdown line_count append].
  assert (Q : forall r n,
             1 <= n ->
             parse_line (mkParseState r EmptyString true n) closing
             = mkParseState r EmptyString false (n + 1)).
  { intros r n Hn. unfold parse_line. cbn [line_count in_yaml raw_yaml markdown].
    rewrite Hc.
    replace (n + 1 =? 1) with false by (symmetry; apply Z.eqb_neq; lia).
    reflexivity. }
  rewrite Q by (pose proof (Nat2Z.is_nonneg (length meta)); lia).
  rewrite parse_loop_body;
    [| reflexivity
     | cbn [line_count]; pose proof (Nat2Z.is_nonneg (length meta)); lia].
  reflexivity.
Qed.

(** X3. A file that opens with a boundary line and never closes the front
    matter is metadata to its end: every line after the first goes to the
    YAML loader and the body is empty. *)
Theorem parse_unclosed_front_matter
        (Y E : Type) (yaml_load : string -> Y + E) (yaml_truthy : Y -> bool)
        (empty_dict : Y) (first : string) (meta : list string) :
  Spec.is_boundary first = true ->
  forallb (fun l => negb (Spec.is_boundary l)) meta = true ->
  parse Y E yaml_load yaml_truthy empty_dict (first :: meta)
  = Spec.parsed yaml_load yaml_truthy empty_dict
      (Spec.concat_lines meta) EmptyString.
Proof.
  intros Hf Hm. unfold parse, Spec.parsed, parse_loop.
  cbn [fold_left]. unfold Spec.is_boundary in Hf.
  assert (P : parse_line (mkParseState EmptyString EmptyString false 0) first
              = mkParseState EmptyString EmptyString true 1).
  { unfold parse_line. cbn [line_count in_yaml raw_yaml markdown].
    rewrite Hf. reflexivity. }
  rewrite P, parse_loop_yaml by (cbn; (reflexivity || lia || exact Hm)).
  reflexivity.
Qed.

(* ===================================================================== *)
(** ** [Article]: label, name and directory *)
(* ===================================================================== *)

Lemma map_chars_compose (f g : ascii -> ascii) (s : string) :
  Spec.map_chars f (Spec.map_chars g s) = Spec.map_chars (fun c => f (g c)) s.
Proof. induction s as [| c s IH]; cbn; [reflexivity | now rewrite IH]. Qed.

Lemma map_chars_ext (f g : ascii -> ascii) (s : string) :
  (forall c, f c = g c) -> Spec.map_chars f s = Spec.map_chars g s.
Proof.
  intros H. induction s as [| c s IH]; cbn; [reflexivity | now rewrite H, IH].
Qed.

Lemma map_chars_length (f : ascii -> ascii) (s : string) :
  String.length (Spec.map_chars f s) = String.length s.
Proof. induction s as [| c s IH]; cbn; [reflexivity | now rewrite IH]. Qed.

Lemma replace_underscore (c : ascii) (s : string) :
  replace c "_" s
  = Spec.map_chars (fun x => if Ascii.eqb x c then "_"%char else x) s.
Proof.
  induction s as [| x s IH]; cbn; [reflexivity |].
  rewrite IH. now destruct (Ascii.eqb x c).
Qed.

(** Replacing the characters of [cs] one after the other by an underscore
    that is not one of them is replacing them all at once. *)
Lemma fold_replace_underscore (cs : list ascii) :
  existsb (Ascii.eqb "_") cs = false ->
  forall s : string,
    fold_left (fun t c => replace c "_" t) cs s
    = Spec.map_chars
        (fun x => if existsb (Ascii.eqb x) cs then "_"%char else x) s.
Proof.
  induction cs as [| c cs IH]; intros U s.
  - cbn. induction s as [| x s IHs]; cbn; [reflexivity | now rewrite <- IHs].
  - cbn [existsb] in U. apply orb_false_iff in U as [U1 U2].
    cbn [fold_left]. rewrite (IH U2), replace_underscore, map_chars_compose.
    apply map_chars_ext. intros x. cbn [existsb].
    destruct (Ascii.eqb x c); cbn [orb].
    + now rewrite U2.
    + reflexivity.
Qed.

Lemma label_char_valid (x c : ascii) :
  In c Record.INVALID_CHARS -> Ascii.eqb (Spec.label_char x) c = false.
Proof.
  intros I.
  assert (E : existsb (Ascii.eqb (Spec.label_char x)) Record.INVALID_CHARS = false).
  { unfold Spec.label_char.
    destruct (existsb (Ascii.eqb x) Record.INVALID_CHARS) eqn:X;
      [reflexivity | exact X]. }
  destruct (Ascii.eqb (Spec.label_char x) c) eqn:Q; [| reflexivity].
  assert (T : existsb (Ascii.eqb (Spec.label_char x)) Record.INVALID_CHARS = true)
    by (apply existsb_exists; now exists c).
  congruence.
Qed.

Lemma label_chars_valid (c : ascii) (s : string) :
  In c Record.INVALID_CHARS -> mem c (Spec.map_chars Spec.label_char s) = false.
Proof.
  intros I. induction s as [| x s IH]; cbn; [reflexivity |].
  now rewrite (label_char_valid x c I), IH.
Qed.

(** X4. The identifier label of an article is [aid_] followed by the
    relative path with every invalid character turned into an underscore
    and every other character kept: it is as long as the path plus four,
    and no invalid character is left in it; building it never raises. *)
Theorem id_label_sanitised (a : Record.Article) :
  exists label : string,
    Record.id_label a = Ok label
    /\ label = "aid_" ++ Spec.map_chars Spec.label_char (Record.relative_path a)
    /\ String.length label = (4 + String.length (Record.relative_path a))%nat
    /\ forall c : ascii, In c Record.INVALID_CHARS -> mem c label = false.
Proof.
  assert (L : Record.id_label a
              = Ok ("aid_" ++ Spec.map_chars Spec.label_char
                                (Record.relative_path a))).
  { unfold Record.id_label.
    assert (F : format "aid_{}" [Record.relative_path a] []
                = Ok ("aid_" ++ Record.relative_path a)).
    { cbn. now rewrite append_nil_r. }
    rewrite F. cbn [bind].
    rewrite fold_replace_underscore by reflexivity. reflexivity. }
  eexists. split; [exact L |]. split; [reflexivity |]. split.
  - cbn [String.length append]. now rewrite map_chars_length.
  - intros c I. cbn [append mem].
    rewrite (label_chars_valid c _ I).
    cbn in I.
    repeat (destruct I as [I | I]; [subst c; reflexivity |]).
    contradiction.
Qed.

Lemma rfind_found (c : ascii) (s : string) : 0 <= rfind c s -> mem c s = true.
Proof.
  induction s as [| x s IH]; cbn; intros H.
  - lia.
  - destruct (0 <=? rfind c s) eqn:E.
    + apply Z.leb_le in E. rewrite (IH E). apply orb_true_r.
    + destruct (Ascii.eqb x c); [reflexivity | lia].
Qed.

Lemma rfind_absent (c : ascii) (s : string) : rfind c s < 0 -> mem c s = false.
Proof.
  intros H. pose proof (rfind_lower c s) as L.
  pose proof (after_last_sep c s) as A.
  replace (rfind c s) with (-1) in A by lia. exact A.
Qed.

Lemma eqb_mem_differ (c : ascii) (a b : string) :
  mem c a = false -> mem c b = true -> String.eqb a b = false.
Proof.
  intros Ha Hb. destruct (String.eqb a b) eqn:E; [| reflexivity].
  apply String.eqb_eq in E. congruence.
Qed.

(** A suffix with no separator in it ends a path exactly when it ends the
    last component of the path. *)
Lemma endswith_after_last_sep (c : ascii) (suffix s : string) :
  mem c suffix = false ->
  endswith suffix (drop (Z.to_nat (rfind c s + 1)) s) = endswith suffix s.
Proof.
  intros M. induction s as [| x s IH].
  - reflexivity.
  - cbn [rfind]. pose proof (rfind_lower c s) as L.
    destruct (0 <=? rfind c s) eqn:E.
    + apply Z.leb_le in E.
      replace (Z.to_nat (rfind c s + 1 + 1)) with (S (Z.to_nat (rfind c s + 1)))
        by lia.
      cbn [drop]. rewrite IH. cbn [endswith].
      rewrite (eqb_mem_differ c suffix (String x s) M).
      * reflexivity.
      * cbn [mem]. rewrite (rfind_found c s E). apply orb_true_r.
    + apply Z.leb_gt in E.
      destruct (Ascii.eqb x c) eqn:X.
      * cbn [Z.add Z.to_nat drop]. change (Z.to_nat (0 + 1)) with 1%nat.
        cbn [drop endswith].
        rewrite (eqb_mem_differ c suffix (String x s) M).
        -- reflexivity.
        -- cbn [mem]. now rewrite X.
      * reflexivity.
Qed.

(** X5. Whether an article is a Markdown file is read off the end of its
    absolute path: the name ends with [.md] exactly when the path does. *)
Theorem is_markdown_by_path (a : Record.Article) :
  Record.is_markdown a = endswith ".md" (Record.absolute_path a).
Proof.
  unfold Record.is_markdown, Record.name, PosixPath.basename.
  apply endswith_after_last_sep. reflexivity.
Qed.

Lemma take_drop (n : nat) (s : string) : take n s ++ drop n s = s.
Proof.
  revert s. induction n as [| n IH]; intros s.
  - reflexivity.
  - destruct s as [| x s]; [reflexivity |]. cbn. now rewrite IH.
Qed.

Lemma rstrip_tail (c : ascii) (s : string) :
  exists k : nat, s = rstrip c s ++ repeat_char c k.
Proof.
  induction s as [| x s [k IH]].
  - exists 0%nat. reflexivity.
  - cbn [rstrip]. destruct (rstrip c s) as [| y t] eqn:R.
    + cbn [append] in IH. destruct (Ascii.eqb x c) eqn:X.
      * apply Ascii.eqb_eq in X. subst x. exists (S k). cbn. now rewrite <- IH.
      * exists k. cbn. now rewrite <- IH.
    + exists k.
      change (String x s = String x (String y t ++ repeat_char c k)).
      now f_equal.
Qed.

(** X6. A path is its directory, then separators, then its name, and the
    name holds no separator: [absolute_director] and [name] lose nothing
    of [absolute_path] but the number of separators between them. *)
Theorem article_path_split (a : Record.Article) :
  exists k : nat,
    Record.absolute_path a
    = Record.absolute_director a ++ repeat_char "/" k ++ Record.name a
    /\ mem "/" (Record.name a) = false.
Proof.
  unfold Record.absolute_director, Record.name, PosixPath.dirname,
    PosixPath.basename.
  set (p := Record.absolute_path a).
  set (n := Z.to_nat (rfind PosixPath.sep p + 1)).
  pose proof (take_drop n p) as S.
  destruct (truthy (take n p)
            && negb (String.eqb (take n p)
                       (repeat_char PosixPath.sep (String.length (take n p))))).
  - destruct (rstrip_tail PosixPath.sep (take n p)) as [k K].
    exists k. split; [| apply after_last_sep].
    rewrite <- append_assoc_r. unfold PosixPath.sep in K |- *.
    rewrite <- K. now rewrite S.
  - exists 0%nat. split; [| apply after_last_sep].
    cbn [repeat_char append]. now rewrite S.
Qed.

(* ===================================================================== *)
(** ** Where attachments resolve *)
(* ===================================================================== *)

Lemma rstrip_empty (c : ascii) (s : string) :
  rstrip c s = EmptyString -> s = repeat_char c (String.length s).
Proof.
  induction s as [| x s IH]; cbn; intros H.
  - reflexivity.
  - destruct (rstrip c s) as [| y t]; [| discriminate].
    destruct (Ascii.eqb x c) eqn:X; [| discriminate].
    apply Ascii.eqb_eq in X. subst x. now rewrite <- IH.
Qed.

Lemma dirname_isabs (p : string) :
  Spec.isabs p = true -> Spec.isabs (PosixPath.dirname p) = true.
Proof.
  unfold Spec.isabs, PosixPath.dirname. intros H.
  destruct p as [| x p]; [discriminate |].
  cbn [startswith] in H. rewrite andb_true_r in H.
  apply Ascii.eqb_eq in H. subst x.
  assert (R : 0 <= rfind PosixPath.sep (String "/" p)).
  { cbn [rfind]. pose proof (rfind_lower PosixPath.sep p).
    destruct (0 <=? rfind PosixPath.sep p) eqn:E.
    - apply Z.leb_le in E. lia.
    - cbn. lia. }
  set (i := rfind PosixPath.sep (String "/" p)) in *.
  replace (Z.to_nat (i + 1)) with (S (Z.to_nat i)) by lia.
  cbn [take truthy andb].
  set (head := String "/" (take (Z.to_nat i) p)).
  destruct (negb (String.eqb head
                    (repeat_char PosixPath.sep (String.length head)))) eqn:N.
  - subst head. cbn [rstrip].
    destruct (rstrip PosixPath.sep (take (Z.to_nat i) p)) as [| y t] eqn:T.
    + apply rstrip_empty in T. apply negb_true_iff in N.
      cbn [String.length repeat_char] in N. rewrite <- T in N.
      unfold PosixPath.sep in N. rewrite String.eqb_refl in N. discriminate.
    + reflexivity.
  - reflexivity.
Qed.

Lemma join_isabs (a b : string) :
  Spec.isabs a = true -> Spec.isabs (PosixPath.join a b) = true.
Proof.
  unfold Spec.isabs, PosixPath.join. intros H.
  destruct (startswith "/" b) eqn:B; [exact B |].
  destruct a as [| x a]; [discriminate |].
  destruct (negb (truthy (String x a)) || endswith_char PosixPath.sep (String x a));
    exact H.
Qed.

Lemma normpath_isabs (p : string) :
  Spec.isabs p = true -> Spec.isabs (PosixPath.normpath p) = true.
Proof.
  unfold Spec.isabs, PosixPath.normpath. intros H.
  destruct p as [| x p]; [discriminate |].
  cbn [truthy negb]. rewrite H.
  destruct (startswith "//" (String x p) && negb (startswith "///" (String x p)));
    reflexivity.
Qed.

Lemma local_paths_isabs (ok : string -> bool) (directory : string)
      (cbs : list Pass.callback) :
  Spec.isabs directory = true ->
  Forall (fun p => Spec.isabs p = true) (Pass.local_paths ok directory cbs).
Proof.
  intros D. induction cbs as [| cb cbs IH]; cbn [Pass.local_paths].
  - constructor.
  - destruct cb as [text level raw | code lang | src title alt_text]; try exact IH.
    destruct (UrlParse.netloc ok src) as [[| c n] | e]; try exact IH.
    constructor; [| exact IH].
    apply normpath_isabs, join_isabs, D.
Qed.

(** X7. When the absolute path of the document is indeed absolute, every
    path a pass records as an attachment is absolute, whatever the image
    sources are. *)
Theorem attachments_absolute
        (ok : string -> bool) (article : Record.Article)
        (authors : option (list string)) (warning : warning_setting)
        (render_toc two_column : bool) (cbs : list Pass.callback)
        (fragments : list string) (self : ConfluenceRenderer) :
  Spec.isabs (Record.absolute_path article) = true ->
  Pass.run ok cbs (__init__ article authors warning render_toc two_column)
  = Ok (fragments, self) ->
  Forall (fun p => Spec.isabs p = true) (attachments self).
Proof.
  intros A H. apply run_fields in H.
  destruct H as (_ & _ & _ & _ & _ & _ & Hat).
  rewrite Hat. cbn [__init__ Convert.attachments Convert.article app].
  apply local_paths_isabs. unfold Record.absolute_director.
  now apply dirname_isabs.
Qed.

(* ===================================================================== *)
(** ** A bare file name as the source of an image *)
(* ===================================================================== *)

Lemma split_nonempty (c : ascii) (s : string) : split c s <> [].
Proof.
  induction s as [| x s IH]; cbn; [discriminate |].
  destruct (Ascii.eqb x c); [discriminate |].
  destruct (split c s); [congruence | discriminate].
Qed.

Lemma split_no_sep (c : ascii) (s : string) : mem c s = false -> split c s = [s].
Proof.
  induction s as [| x s IH]; cbn; intros H; [reflexivity |].
  apply orb_false_iff in H as [H1 H2]. rewrite H1, (IH H2). reflexivity.
Qed.

Lemma split_app_sep (c : ascii) (a b : string) :
  split c (a ++ String c b) = (split c a ++ split c b)%list.
Proof.
  induction a as [| x a IH]; cbn [append split].
  - now rewrite Ascii.eqb_refl.
  - rewrite IH. destruct (Ascii.eqb x c); [reflexivity |].
    pose proof (split_nonempty c a) as N.
    destruct (split c a) as [| w ws]; [congruence | reflexivity].
Qed.

Lemma endswith_char_snoc (c : ascii) (d : string) :
  endswith_char c d = true -> exists d' : string, d = d' ++ String c EmptyString.
Proof.
  induction d as [| x d IH]; cbn; intros H; [discriminate |].
  destruct d as [| y d].
  - apply Ascii.eqb_eq in H. subst x. now exists EmptyString.
  - destruct (IH H) as [d' E]. exists (String x d'). cbn. now rewrite <- E.
Qed.

Lemma join_snoc (sep : string) (l : list string) (x : string) :
  Py.join sep (l ++ [x])
  = if PosixPath.is_nil l then x else Py.join sep l ++ sep ++ x.
Proof.
  induction l as [| y l IH]; [reflexivity |].
  cbn [PosixPath.is_nil]. change ((y :: l) ++ [x])%list with (y :: (l ++ [x]))%list.
  destruct l as [| z l].
  - reflexivity.
  - change (Py.join sep (y :: (z :: l) ++ [x]))
      with (y ++ sep ++ Py.join sep ((z :: l) ++ [x])).
    rewrite IH. cbn [PosixPath.is_nil].
    change (Py.join sep (y :: z :: l)) with (y ++ sep ++ Py.join sep (z :: l)).
    now rewrite !append_assoc_r.
Qed.

Lemma rfind_app_sep (c : ascii) (y s : string) :
  mem c s = false -> rfind c (y ++ String c s) = Z.of_nat (String.length y).
Proof.
  intros M. induction y as [| x y IH].
  - cbn [append rfind String.length].
    pose proof (rfind_lower c s) as L.
    destruct (0 <=? rfind c s) eqn:E.
    + apply Z.leb_le in E. rewrite (rfind_found c s E) in M. discriminate.
    + now rewrite Ascii.eqb_refl.
  - cbn [append rfind String.length]. rewrite IH.
    replace (0 <=? Z.of_nat (String.length y)) with true
      by (symmetry; apply Z.leb_le; lia).
    lia.
Qed.

Lemma basename_app_sep (y s : string) :
  mem "/" s = false -> PosixPath.basename (y ++ String "/" s) = s.
Proof.
  intros M. unfold PosixPath.basename, PosixPath.sep.
  rewrite (rfind_app_sep _ y s M).
  replace (Z.to_nat (Z.of_nat (String.length y) + 1))
    with (String.length y + 1)%nat by lia.
  now rewrite drop_append.
Qed.

Lemma basename_no_sep (s : string) :
  mem "/" s = false -> PosixPath.basename s = s.
Proof.
  intros M. unfold PosixPath.basename, PosixPath.sep.
  pose proof (rfind_lower "/" s) as L.
  destruct (0 <=? rfind "/" s) eqn:E.
  - apply Z.leb_le in E. rewrite (rfind_found _ s E) in M. discriminate.
  - apply Z.leb_gt in E. replace (rfind "/" s) with (-1) by lia. reflexivity.
Qed.

Lemma bare_name_facts (src : string) :
  Spec.bare_name src = true ->
  src <> EmptyString /\ mem "/" src = false
  /\ String.eqb src "." = false /\ String.eqb src ".." = false.
Proof.
  unfold Spec.bare_name. intros H.
  apply andb_true_iff in H as [H H4]. apply andb_true_iff in H as [H H3].
  apply andb_true_iff in H as [H1 H2].
  apply negb_true_iff in H2, H3, H4.
  repeat split; try assumption.
  destruct src; [discriminate | discriminate].
Qed.

(** The last component of a path, when it is a bare name, is the last
    component of the normalised path. *)
Lemma normpath_keeps_last (p src : string) (l : list string) :
  Spec.bare_name src = true ->
  split PosixPath.sep p = (l ++ [src])%list ->
  PosixPath.normpath p = src
  \/ exists y : string, PosixPath.normpath p = y ++ String "/" src.
Proof.
  intros B S. destruct (bare_name_facts src B) as (Hne & Hm & Hd & Hdd).
  assert (E : String.eqb src EmptyString = false).
  { destruct src; [congruence | reflexivity]. }
  unfold PosixPath.normpath.
  destruct p as [| x p].
  { cbn in S. destruct l as [| a l]; cbn in S.
    - inversion S. congruence.
    - inversion S. destruct l; discriminate. }
  cbn [truthy negb].
  set (n := if startswith "/" (String x p)
            then if startswith "//" (String x p)
                    && negb (startswith "///" (String x p))
                 then 2%nat else 1%nat
            else 0%nat).
  rewrite S, fold_left_app. cbn [fold_left].
  set (comps := fold_left (PosixPath.normpath_step n) l []).
  assert (T : PosixPath.normpath_step n comps src = (comps ++ [src])%list).
  { unfold PosixPath.normpath_step. rewrite E, Hd, Hdd. reflexivity. }
  rewrite T, join_snoc.
  assert (N : n = 0%nat \/ n = 1%nat \/ n = 2%nat).
  { subst n. destruct (startswith "/" (String x p)); [| auto].
    destruct (startswith "//" (String x p) && negb (startswith "///" (String x p)));
      auto. }
  destruct comps as [| c0 cs]; cbn [PosixPath.is_nil].
  - destruct N as [N | [N | N]]; rewrite N; cbn [repeat_char append].
    + left. destruct src; [congruence | reflexivity].
    + right. now exists EmptyString.
    + right. now exists "/".
  - right.
    exists (repeat_char PosixPath.sep n ++ Py.join "/" (c0 :: cs)).
    assert (Q : repeat_char PosixPath.sep n ++ Py.join "/" (c0 :: cs) ++ "/" ++ src
                = (repeat_char PosixPath.sep n ++ Py.join "/" (c0 :: cs))
                  ++ String "/" src).
    { now rewrite !append_assoc_r. }
    rewrite Q.
    destruct ((repeat_char PosixPath.sep n ++ Py.join "/" (c0 :: cs))
              ++ String "/" src) eqn:Z; [| reflexivity].
    destruct (repeat_char PosixPath.sep n ++ Py.join "/" (c0 :: cs)); discriminate.
Qed.

Lemma join_keeps_last (d src : string) :
  Spec.bare_name src = true ->
  exists l : list string,
    split PosixPath.sep (PosixPath.join d src) = (l ++ [src])%list.
Proof.
  intros B. destruct (bare_name_facts src B) as (Hne & Hm & _ & _).
  unfold PosixPath.join, PosixPath.sep.
  assert (S : startswith "/" src = false).
  { destruct src as [| x src]; [congruence |].
    cbn [mem] in Hm. apply orb_false_iff in Hm as [Hx _].
    cbn [startswith]. rewrite Ascii.eqb_sym, Hx. reflexivity. }
  rewrite S.
  destruct (negb (truthy d) || endswith_char "/" d) eqn:C.
  - destruct d as [| x d].
    + exists []. cbn [append app]. now apply split_no_sep.
    + cbn [truthy negb orb] in C. apply endswith_char_snoc in C as [d' D].
      rewrite D, append_assoc_r. cbn [append].
      exists (split "/" d').
      rewrite split_app_sep. now rewrite (split_no_sep "/" src Hm).
  - exists (split "/" d).
    change (d ++ "/" ++ src) with (d ++ String "/" src).
    rewrite split_app_sep. now rewrite (split_no_sep "/" src Hm).
Qed.

Lemma mem_lstrip_c0 (c : ascii) (s : string) :
  mem c s = false -> mem c (UrlParse.lstrip_c0_or_space s) = false.
Proof.
  induction s as [| x s IH]; cbn [UrlParse.lstrip_c0_or_space]; intros H;
    [reflexivity |].
  destruct (nat_of_ascii x <=? 32)%nat; [| exact H].
  cbn [mem] in H. apply orb_false_iff in H as [_ H]. now apply IH.
Qed.

Lemma mem_replace_empty (c x : ascii) (s : string) :
  mem c s = false -> mem c (replace x EmptyString s) = false.
Proof.
  induction s as [| y s IH]; cbn [replace mem]; intros H; [reflexivity |].
  apply orb_false_iff in H as [H1 H2].
  destruct (Ascii.eqb y x); cbn [append mem]; [now apply IH |].
  now rewrite H1, IH.
Qed.

Lemma mem_drop (c : ascii) (n : nat) (s : string) :
  mem c s = false -> mem c (drop n s) = false.
Proof.
  revert s. induction n as [| n IH]; intros s H; [exact H |].
  destruct s as [| x s]; [reflexivity |].
  cbn [mem] in H. apply orb_false_iff in H as [_ H]. cbn [drop]. now apply IH.
Qed.

(** A source with no separator in it has no authority. *)
Lemma netloc_no_slash (ok : string -> bool) (src : string) :
  mem "/" src = false -> UrlParse.netloc ok src = Ok EmptyString.
Proof.
  intros M. unfold UrlParse.netloc.
  set (u := UrlParse.after_scheme
              (UrlParse.remove_unsafe (UrlParse.lstrip_c0_or_space src))).
  assert (U : mem "/" u = false).
  { subst u. unfold UrlParse.after_scheme, UrlParse.remove_unsafe.
    set (v := replace "010" EmptyString
                (replace "013" EmptyString
                   (replace "009" EmptyString
                      (UrlParse.lstrip_c0_or_space src)))).
    assert (V : mem "/" v = false).
    { subst v. repeat apply mem_replace_empty. now apply mem_lstrip_c0. }
    destruct ((0 <? find ":" v)
              && match v with
                 | EmptyString => false
                 | String c _ => UrlParse.is_ascii_alpha c
                 end); [| exact V].
    destruct (UrlParse.forall_chars (fun c => mem c UrlParse.scheme_chars)
                (take (Z.to_nat (find ":" v)) v)); [| exact V].
    now apply mem_drop. }
  destruct u as [| a u]; [reflexivity |].
  cbn [mem] in U. apply orb_false_iff in U as [Ua _].
  destruct u as [| b u]; cbn [take String.eqb]; now rewrite Ua.
Qed.

(** X8. An image whose source is a bare file name (not empty, no slash, not
    a dot name) is local whatever else the name holds, and the page refers
    to it under that very name; the path recorded is the directory of the
    document joined with the name, normalised. *)
Theorem image_bare_name
        (ok : string -> bool) (self : ConfluenceRenderer)
        (src title alt_text : string) :
  Spec.bare_name src = true ->
  exists self' : ConfluenceRenderer,
    image ok src title alt_text self = Ok (Spec.attachment_reference src, self')
    /\ attachments self'
       = (attachments self ++ [Spec.resolved_path self src])%list
    /\ PosixPath.basename (Spec.resolved_path self src) = src.
Proof.
  intros B. destruct (bare_name_facts src B) as (Hne & Hm & _ & _).
  assert (N : PosixPath.basename (Spec.resolved_path self src) = src).
  { unfold Spec.resolved_path.
    destruct (join_keeps_last
                (PosixPath.dirname (Record.absolute_path (article self))) src B)
      as [l S].
    destruct (normpath_keeps_last _ src l B S) as [E | [y E]]; rewrite E.
    - now apply basename_no_sep.
    - now apply basename_app_sep. }
  exists (Spec.with_attachment self (Spec.resolved_path self src)).
  split; [| split; [reflexivity | exact N]].
  rewrite image_eq, (netloc_no_slash ok src Hm), N. reflexivity.
Qed.

(** X9. A local source that starts with a slash is taken from the root of
    the file system: the directory of the document plays no part in the
    path recorded. *)
Theorem image_rooted_source
        (ok : string -> bool) (self : ConfluenceRenderer)
        (src title alt_text : string) :
  startswith "/" src = true ->
  UrlParse.netloc ok src = Ok EmptyString ->
  image ok src title alt_text self
  = Ok (Spec.attachment_reference (PosixPath.basename (PosixPath.normpath src)),
        Spec.with_attachment self (PosixPath.normpath src))
  /\ Spec.isabs (PosixPath.normpath src) = true.
Proof.
  intros S N. split.
  - rewrite image_eq, N. unfold Spec.resolved_path, PosixPath.join.
    rewrite S. reflexivity.
  - now apply normpath_isabs.
Qed.

(* ===================================================================== *)
(** ** An authority the library refuses *)
(* ===================================================================== *)

Lemma until_delim_authority (host rest : string) :
  UrlParse.forall_chars Spec.authority_char host = true ->
  UrlParse.until_delim (host ++ "/" ++ rest) = host.
Proof.
  induction host as [| x host IH]; intros H.
  - reflexivity.
  - cbn [UrlParse.forall_chars] in H. apply andb_true_iff in H as [H1 H2].
    change (String x host ++ "/" ++ rest) with (String x (host ++ "/" ++ rest)).
    cbn [UrlParse.until_delim].
    unfold Spec.authority_char in H1. apply andb_true_iff in H1 as [H1 _].
    apply negb_true_iff in H1. now rewrite H1, IH.
Qed.

(** The authority of a source [//host/...], before the library looks at
    its square brackets. *)
Lemma netloc_after_two_slashes (ok : string -> bool) (host rest : string) :
  UrlParse.forall_chars Spec.authority_char host = true ->
  UrlParse.netloc ok ("//" ++ host ++ "/" ++ rest)
  = if (mem "[" host && negb (mem "]" host)) || (mem "]" host && negb (mem "[" host))
    then Raise ValueError
    else if mem "[" host && mem "]" host
         then bind (UrlParse.check_bracketed_netloc ok host) (fun _ => Ok host)
         else Ok host.
Proof.
  intros Hh.
  assert (M : forall c, Spec.authority_char c = false -> mem c host = false)
    by (intros c; now apply forall_chars_mem).
  unfold UrlParse.netloc.
  change (UrlParse.lstrip_c0_or_space ("//" ++ host ++ "/" ++ rest))
    with ("//" ++ host ++ "/" ++ rest).
  assert (R : UrlParse.remove_unsafe ("//" ++ host ++ "/" ++ rest)
              = "//" ++ host ++ "/" ++ UrlParse.remove_unsafe rest).
  { unfold UrlParse.remove_unsafe.
    rewrite !(replace_append "009").
    rewrite (replace_absent "009" _ host) by (apply M; reflexivity).
    rewrite !(replace_append "013").
    rewrite (replace_absent "013" _ host) by (apply M; reflexivity).
    rewrite !(replace_append "010").
    rewrite (replace_absent "010" _ host) by (apply M; reflexivity).
    reflexivity. }
  rewrite R. clear R.
  assert (S : UrlParse.after_scheme ("//" ++ host ++ "/" ++ UrlParse.remove_unsafe rest)
              = "//" ++ host ++ "/" ++ UrlParse.remove_unsafe rest).
  { unfold UrlParse.after_scheme.
    change ("//" ++ host ++ "/" ++ UrlParse.remove_unsafe rest)
      with (String "/" (String "/" (host ++ "/" ++ UrlParse.remove_unsafe rest))).
    cbv beta iota. change (UrlParse.is_ascii_alpha "/") with false.
    now rewrite andb_false_r. }
  rewrite S. clear S.
  change (take 2 ("//" ++ host ++ "/" ++ UrlParse.remove_unsafe rest)) with "//".
  change (drop 2 ("//" ++ host ++ "/" ++ UrlParse.remove_unsafe rest))
    with (host ++ "/" ++ UrlParse.remove_unsafe rest).
  cbn [String.eqb Ascii.eqb Bool.eqb].
  now rewrite (until_delim_authority _ _ Hh).
Qed.

(** X10. A source [//host/...] whose authority holds one square bracket
    and not the other makes [image] raise [ValueError]: no fragment is
    returned, and the pass that called it ends there. *)
Theorem image_unbalanced_bracket
        (ok : string -> bool) (self : ConfluenceRenderer)
        (host rest title alt_text : string) (cbs : list Pass.callback) :
  UrlParse.forall_chars Spec.authority_char host = true ->
  xorb (mem "[" host) (mem "]" host) = true ->
  image ok ("//" ++ host ++ "/" ++ rest) title alt_text self = Raise ValueError
  /\ Pass.run ok (Pass.Image ("//" ++ host ++ "/" ++ rest) title alt_text :: cbs) self
     = Raise ValueError.
Proof.
  intros Hh X.
  assert (I : image ok ("//" ++ host ++ "/" ++ rest) title alt_text self
              = Raise ValueError).
  { rewrite image_eq, (netloc_after_two_slashes ok host rest Hh).
    destruct (mem "[" host), (mem "]" host); try discriminate; reflexivity. }
  split; [exact I |].
  cbn [Pass.run Pass.dispatch]. rewrite I. reflexivity.
Qed.

(* ===================================================================== *)
(** ** The body in the page, and the text in the banner *)
(* ===================================================================== *)

(** X11. [layout] wraps the body and never rewrites it: for a renderer
    there are a text before and a text after, the same for every body,
    between which the body stands unchanged in the page. *)
Theorem layout_wraps_body (self : ConfluenceRenderer) :
  exists before after : string,
    forall content : string,
      layout self content = Ok (before ++ content ++ after).
Proof.
  set (W := Spec.warning_banner (warning self)).
  set (T := layout_toc self).
  set (A := Spec.author_block (authors self)).
  destruct (two_column_layout self && (truthy T || truthy A)) eqn:C.
  - exists ((Spec.page_open
             ++ (if truthy W then Spec.full_width W else EmptyString)
             ++ Spec.columns_open) ++ T ++ A ++ Spec.columns_mid),
           (Spec.columns_close ++ Spec.page_close).
    intros content. rewrite layout_eq. unfold Spec.compose.
    fold W T A. rewrite C, two_column_page_cut.
    now rewrite !append_assoc_r.
  - exists (W ++ T ++ A), EmptyString.
    intros content. rewrite layout_eq. unfold Spec.compose.
    fold W T A. rewrite C.
    now rewrite !append_assoc_r, append_nil_r.
Qed.

Lemma escape_plain (text : string) :
  UrlParse.forall_chars Spec.plain_char text = true -> Html.escape text = text.
Proof.
  induction text as [| c text IH]; intros H.
  - reflexivity.
  - cbn [UrlParse.forall_chars] in H. apply andb_true_iff in H as [Hc Ht].
    rewrite escape_cons, (IH Ht).
    destruct c as [[] [] [] [] [] [] [] []];
      (discriminate Hc || reflexivity).
Qed.

(** X12. A custom warning text with none of the five markup characters in
    it stands in the banner as it was written. *)
Theorem banner_plain_text (self : ConfluenceRenderer) (text : string) :
  warning self = WStr text ->
  text <> EmptyString ->
  UrlParse.forall_chars Spec.plain_char text = true ->
  _render_warning self = Ok (Spec.note_open ++ text ++ Spec.note_close).
Proof.
  intros W N P. rewrite render_warning_eq, W.
  cbn [Spec.warning_banner]. unfold Spec.banner.
  rewrite (escape_plain text P).
  destruct text; [congruence | reflexivity].
Qed.

Lemma length_append (a b : string) :
  String.length (a ++ b) = (String.length a + String.length b)%nat.
Proof. induction a as [| x a IH]; cbn; [reflexivity | now rewrite IH]. Qed.

Lemma append_cancel_l (a b c : string) : a ++ b = a ++ c -> b = c.
Proof.
  induction a as [| x a IH]; cbn; intros H; [exact H |].
  injection H as H. now apply IH.
Qed.

Lemma append_cancel_r (a b c : string) : a ++ c = b ++ c -> a = b.
Proof.
  revert b. induction a as [| x a IH]; intros b H.
  - destruct b as [| y b]; [reflexivity |].
    apply (f_equal String.length) in H.
    cbn [append String.length] in H. rewrite length_append in H. lia.
  - destruct b as [| y b].
    + apply (f_equal String.length) in H.
      cbn [append String.length] in H. rewrite length_append in H. lia.
    + cbn [append] in H. injection H as Hx H. subst y. f_equal. now apply IH.
Qed.

(** X13. The banner tells the warning texts apart: two renderers set with
    custom texts return the same banner only when the texts are the same,
    so escaping never merges two texts. *)
Theorem banner_injective (self1 self2 : ConfluenceRenderer) (text1 text2 : string) :
  warning self1 = WStr text1 ->
  warning self2 = WStr text2 ->
  _render_warning self1 = _render_warning self2 ->
  text1 = text2.
Proof.
  intros W1 W2 H. rewrite !render_warning_eq, W1, W2 in H.
  injection H as H. cbn [Spec.warning_banner] in H.
  destruct text1 as [| x1 t1], text2 as [| x2 t2]; cbn [truthy] in H.
  - reflexivity.
  - unfold Spec.banner in H. vm_compute in H. discriminate.
  - unfold Spec.banner in H. vm_compute in H. discriminate.
  - unfold Spec.banner in H.
    apply append_cancel_l, append_cancel_r in H.
    apply (f_equal Spec.unescape) in H. now rewrite !unescape_escape in H.
Qed.

(* ===================================================================== *)
(** ** What a pass never touches, and what it never resets *)
(* ===================================================================== *)

Lemma run_length (ok : string -> bool) (cbs : list Pass.callback) :
  forall (self self' : ConfluenceRenderer) (fragments : list string),
    Pass.run ok cbs self = Ok (fragments, self') ->
    length fragments = length cbs.
Proof.
  induction cbs as [| cb cbs IH]; intros self self' fragments H.
  - cbn in H. inversion H. reflexivity.
  - cbn [Pass.run] in H.
    destruct (Pass.dispatch ok cb self) as [[f mid] | e]; cbn [bind snd fst] in H;
      [| discriminate].
    destruct (Pass.run ok cbs mid) as [[fs last] | e] eqn:R;
      cbn [bind snd fst] in H; [| discriminate].
    inversion H; subst. cbn [length]. f_equal. now apply (IH mid self').
Qed.

(** X14. A pass never touches the configuration: authors, warning setting,
    the two flags and the article are after the pass what they were
    before, and the pass returns one fragment per callback. *)
Theorem pass_keeps_configuration
        (ok : string -> bool) (cbs : list Pass.callback)
        (self self' : ConfluenceRenderer) (fragments : list string) :
  Pass.run ok cbs self = Ok (fragments, self') ->
  authors self' = authors self
  /\ warning self' = warning self
  /\ render_toc self' = render_toc self
  /\ two_column_layout self' = two_column_layout self
  /\ article self' = article self
  /\ length fragments = length cbs.
Proof.
  intros H. pose proof (run_length ok cbs self self' fragments H) as L.
  apply run_fields in H. destruct H as (A & R & Ar & W & T & _ & _).
  auto 10.
Qed.

(** X15. No callback resets the renderer: a second pass on the same
    instance keeps the attachments of the first at the head of the list,
    and once a header has been seen the table of contents is laid out for
    every later document, one with no header too. *)
Theorem renderer_state_carries_over
        (ok : string -> bool) (cbs1 cbs2 : list Pass.callback)
        (self0 self1 self2 : ConfluenceRenderer) (fragments1 fragments2 : list string) :
  Pass.run ok cbs1 self0 = Ok (fragments1, self1) ->
  Pass.run ok cbs2 self1 = Ok (fragments2, self2) ->
  (exists more : list string,
      attachments self2 = (attachments self1 ++ more)%list)
  /\ (has_toc self1 = true -> has_toc self2 = true)
  /\ (existsb Pass.is_header cbs1 = true ->
      render_toc self0 = true ->
      layout_toc self2 = Spec.toc_fragment).
Proof.
  intros H1 H2. apply run_fields in H1, H2.
  destruct H1 as (_ & R1 & _ & _ & _ & T1 & _).
  destruct H2 as (_ & R2 & _ & _ & _ & T2 & A2).
  split; [eexists; exact A2 |]. split.
  - intros H. now rewrite T2, H.
  - intros E R. rewrite layout_toc_eq, T2, T1, E, R2, R1, R.
    now rewrite orb_true_r.
Qed.

(* ===================================================================== *)
(** ** The body [parse] returns is trimmed *)
(* ===================================================================== *)

Lemma lstrip_space_head (s : string) :
  match lstrip_space s with
  | EmptyString => True
  | String c _ => isspace c = false
  end.
Proof.
  induction s as [| c s IH]; cbn [lstrip_space]; [exact I |].
  destruct (isspace c) eqn:E; [exact IH | exact E].
Qed.

Lemma rstrip_space_head (c : ascii) (s : string) :
  isspace c = false -> exists t : string, rstrip_space (String c s) = String c t.
Proof.
  intros E. cbn [rstrip_space]. rewrite E.
  destruct (rstrip_space s) as [| y t]; eexists; reflexivity.
Qed.

Lemma rstrip_space_idempotent (s : string) :
  rstrip_space (rstrip_space s) = rstrip_space s.
Proof.
  induction s as [| c s IH]; [reflexivity |].
  cbn [rstrip_space]. destruct (rstrip_space s) as [| y t] eqn:R.
  - destruct (isspace c) eqn:E; [reflexivity |]. cbn [rstrip_space]. now rewrite E.
  - change (rstrip_space (String c (String y t)))
      with (match rstrip_space (String y t) with
            | EmptyString => if isspace c then EmptyString else String c EmptyString
            | String a b => String c (String a b)
            end).
    now rewrite IH.
Qed.

Lemma strip_idempotent (s : string) : strip (strip s) = strip s.
Proof.
  unfold strip. pose proof (lstrip_space_head s) as H.
  destruct (lstrip_space s) as [| c u]; [reflexivity |].
  destruct (rstrip_space_head c u H) as [t T]. rewrite T.
  cbn [lstrip_space]. rewrite H, <- T. apply rstrip_space_idempotent.
Qed.

(** X16. Whatever the file holds, the body [parse] returns has no white
    space left at either end: stripping it again changes nothing. *)
Theorem parse_body_trimmed
        (Y E : Type) (yaml_load : string -> Y + E) (yaml_truthy : Y -> bool)
        (empty_dict : Y) (post : list string) (front_matter : Y) (body : string) :
  parse Y E yaml_load yaml_truthy empty_dict post = inl (front_matter, body) ->
  strip body = body.
Proof.
  unfold parse. intros H.
  destruct (yaml_load (raw_yaml (parse_loop post))); [| discriminate].
  inversion H; subst. apply strip_idempotent.
Qed.

(* ===================================================================== *)
(** ** The path recorded is normalised *)
(* ===================================================================== *)

Lemma split_components (c : ascii) (s : string) :
  Forall (fun w => mem c w = false) (split c s).
Proof.
  induction s as [| x s IH]; cbn [split].
  - repeat constructor.
  - destruct (Ascii.eqb x c) eqn:E.
    + constructor; [reflexivity | exact IH].
    + destruct (split c s) as [| w ws]; [repeat constructor; cbn; now rewrite E |].
      inversion IH as [| ? ? Hw Hws]; subst.
      constructor; [| exact Hws]. cbn [mem]. now rewrite E, Hw.
Qed.

Lemma Forall_removelast {A : Type} (P : A -> Prop) (l : list A) :
  Forall P l -> Forall P (removelast l).
Proof.
  induction l as [| x l IH]; intros H; [exact H |].
  inversion H as [| ? ? Hx Hl]; subst. cbn [removelast].
  destruct l as [| y l]; [constructor |].
  constructor; [exact Hx | now apply IH].
Qed.

Lemma Forall_last {A : Type} (P : A -> Prop) (l : list A) (d : A) :
  Forall P l -> PosixPath.is_nil l = false -> P (last l d).
Proof.
  induction l as [| x l IH]; intros H N; [discriminate |].
  inversion H as [| ? ? Hx Hl]; subst.
  destruct l as [| y l]; [exact Hx |].
  now apply IH.
Qed.

Lemma normpath_step_normal (n : nat) (comps : list string) (comp : string) :
  mem "/" comp = false ->
  Forall (Spec.normal_component (negb (Nat.eqb n 0))) comps ->
  Forall (Spec.normal_component (negb (Nat.eqb n 0)))
    (PosixPath.normpath_step n comps comp).
Proof.
  intros M F. unfold PosixPath.normpath_step.
  destruct (String.eqb comp EmptyString || String.eqb comp ".") eqn:E; [exact F |].
  apply orb_false_iff in E as [E1 E2].
  destruct (negb (String.eqb comp "..")
            || (Nat.eqb n 0 && PosixPath.is_nil comps)
            || (negb (PosixPath.is_nil comps)
                && String.eqb (last comps EmptyString) "..")) eqn:C.
  - apply Forall_app. split; [exact F |]. constructor; [| constructor].
    repeat split; try assumption.
    intros R. apply negb_true_iff in R.
    apply orb_true_iff in C as [C | C].
    + apply orb_true_iff in C as [C | C].
      * now apply negb_true_iff in C.
      * rewrite R in C. discriminate.
    + apply andb_true_iff in C as [C1 C2]. apply negb_true_iff in C1.
      destruct (Forall_last _ comps EmptyString F C1) as (_ & _ & L & _).
      rewrite L in C2; [discriminate | now rewrite R].
  - destruct (negb (PosixPath.is_nil comps)); [now apply Forall_removelast | exact F].
Qed.

Lemma normpath_fold_normal (n : nat) (l : list string) :
  Forall (fun w => mem "/" w = false) l ->
  forall comps : list string,
    Forall (Spec.normal_component (negb (Nat.eqb n 0))) comps ->
    Forall (Spec.normal_component (negb (Nat.eqb n 0)))
      (fold_left (PosixPath.normpath_step n) l comps).
Proof.
  induction l as [| w l IH]; intros H comps F; [exact F |].
  inversion H as [| ? ? Hw Hl]; subst. cbn [fold_left].
  apply IH; [exact Hl |]. now apply normpath_step_normal.
Qed.

(** X17. The path [image] records for a document with an absolute path is
    normalised and rooted: one or two slashes, then components joined by
    single slashes, none of them empty, a dot or a dot-dot name.  However
    many [..] the source holds, the path never climbs above the root. *)
Theorem attachment_path_normalised
        (ok : string -> bool) (self : ConfluenceRenderer)
        (src title alt_text : string) :
  Spec.isabs (Record.absolute_path (article self)) = true ->
  UrlParse.netloc ok src = Ok EmptyString ->
  exists (n : nat) (comps : list string) (fragment : string),
    image ok src title alt_text self
    = Ok (fragment,
          Spec.with_attachment self (repeat_char "/" n ++ Py.join "/" comps))
    /\ (n = 1 \/ n = 2)%nat
    /\ Forall (Spec.normal_component true) comps.
Proof.
  intros A N.
  set (p := PosixPath.join
              (PosixPath.dirname (Record.absolute_path (article self))) src).
  assert (P : Spec.isabs p = true) by (apply join_isabs, dirname_isabs, A).
  set (n := if startswith "//" p && negb (startswith "///" p) then 2%nat else 1%nat).
  assert (Hn : (n = 1 \/ n = 2)%nat).
  { subst n. destruct (startswith "//" p && negb (startswith "///" p)); auto. }
  assert (R : negb (Nat.eqb n 0) = true) by (destruct Hn as [-> | ->]; reflexivity).
  set (comps := fold_left (PosixPath.normpath_step n) (split PosixPath.sep p) []).
  assert (E : PosixPath.normpath p = repeat_char "/" n ++ Py.join "/" comps).
  { unfold PosixPath.normpath. unfold Spec.isabs in P.
    destruct p as [| x q] eqn:Q; [discriminate |].
    cbn [truthy negb]. rewrite P. fold n. fold comps.
    unfold PosixPath.sep.
    destruct Hn as [-> | ->]; reflexivity. }
  exists n, comps. eexists. split; [| split; [exact Hn |]].
  - rewrite image_eq, N. unfold Spec.resolved_path. fold p. rewrite E.
    reflexivity.
  - rewrite <- R. apply normpath_fold_normal; [apply split_components | constructor].
Qed.

(* ===================================================================== *)
(** ** The further statements, run on a document *)
(* ===================================================================== *)

Lemma parse_without_front_matter_witness :
  Spec.is_boundary ("# Title" ++ LF) = false
  /\ parse string unit Spec.text_loader truthy "{}"
       ["# Title" ++ LF; "---" ++ LF; "text" ++ LF]
     = inl ("{}", "# Title" ++ LF ++ "---" ++ LF ++ "text").
Proof.
  split; [reflexivity |].
  exact (parse_without_front_matter string unit Spec.text_loader truthy "{}"
           ["# Title" ++ LF; "---" ++ LF; "text" ++ LF] eq_refl).
Defined.

Lemma parse_with_front_matter_witness :
  Spec.is_boundary ("---" ++ LF) = true
  /\ parse string unit Spec.text_loader truthy "{}"
       ["---" ++ LF; "title: T" ++ LF; "---" ++ LF; "# T" ++ LF; "---" ++ LF]
     = inl ("title: T" ++ LF, "# T" ++ LF ++ "---").
Proof.
  split; [reflexivity |].
  exact (parse_with_front_matter string unit Spec.text_loader truthy "{}"
           ("---" ++ LF) ("---" ++ LF) ["title: T" ++ LF]
           ["# T" ++ LF; "---" ++ LF] eq_refl eq_refl eq_refl).
Defined.

Lemma parse_unclosed_front_matter_witness :
  Spec.is_boundary ("---" ++ LF) = true
  /\ parse string unit Spec.text_loader truthy "{}"
       ["---" ++ LF; "title: T" ++ LF; "# T" ++ LF]
     = inl ("title: T" ++ LF ++ "# T" ++ LF, EmptyString).
Proof.
  split; [reflexivity |].
  exact (parse_unclosed_front_matter string unit Spec.text_loader truthy "{}"
           ("---" ++ LF) ["title: T" ++ LF; "# T" ++ LF] eq_refl eq_refl).
Defined.

Lemma parse_body_trimmed_witness :
  parse string unit Spec.text_loader truthy "{}" ["  # T  " ++ LF; LF]
  = inl ("{}", "# T")
  /\ strip "# T" = "# T".
Proof.
  split; [reflexivity |].
  exact (parse_body_trimmed string unit Spec.text_loader truthy "{}"
           ["  # T  " ++ LF; LF] "{}" "# T" eq_refl).
Defined.

Lemma attachments_absolute_witness :
  Spec.isabs "/docs/posts/intro.md" = true
  /\ Forall (fun p => Spec.isabs p = true) ["/docs/up.png"; "/abs/b.png"].
Proof.
  split; [reflexivity |].
  exact (attachments_absolute
           Spec.no_bracketed_host Spec.sample_article None (WBool true) true false
           [Pass.Image "../up.png" "t" "a"; Pass.Image "/abs/b.png" "t" "a"]
           [Spec.attachment_reference "up.png"; Spec.attachment_reference "b.png"]
           (mkRenderer ["/docs/up.png"; "/abs/b.png"] [] false true
              Spec.sample_article (WBool true) false)
           eq_refl eq_refl).
Defined.

Lemma image_bare_name_witness :
  Spec.bare_name "data:a.png" = true
  /\ exists self' : ConfluenceRenderer,
      image Spec.no_bracketed_host "data:a.png" "t" "a" Spec.sample_renderer
      = Ok (Spec.attachment_reference "data:a.png", self')
      /\ attachments self' = ["/docs/posts/data:a.png"].
Proof.
  split; [reflexivity |].
  destruct (image_bare_name Spec.no_bracketed_host Spec.sample_renderer
              "data:a.png" "t" "a" eq_refl)
    as (self' & I & A & _).
  exists self'. split; [exact I | exact A].
Defined.

Lemma image_rooted_source_witness :
  UrlParse.netloc Spec.no_bracketed_host "/static/a.png" = Ok EmptyString
  /\ image Spec.no_bracketed_host "/static/a.png" "t" "a" Spec.sample_renderer
     = Ok (Spec.attachment_reference "a.png",
           Spec.with_attachment Spec.sample_renderer "/static/a.png").
Proof.
  split; [reflexivity |].
  exact (proj1 (image_rooted_source Spec.no_bracketed_host Spec.sample_renderer
                  "/static/a.png" "t" "a" eq_refl eq_refl)).
Defined.

Lemma image_unbalanced_bracket_witness :
  xorb (mem "[" "[host") (mem "]" "[host") = true
  /\ image Spec.no_bracketed_host "//[host/a.png" "t" "a" Spec.sample_renderer
     = Raise ValueError.
Proof.
  split; [reflexivity |].
  exact (proj1 (image_unbalanced_bracket Spec.no_bracketed_host
                  Spec.sample_renderer "[host" "a.png" "t" "a" []
                  eq_refl eq_refl)).
Defined.

Lemma banner_plain_text_witness :
  UrlParse.forall_chars Spec.plain_char "Generated page." = true
  /\ _render_warning (Spec.noted_renderer "Generated page.")
     = Ok (Spec.note_open ++ "Generated page." ++ Spec.note_close).
Proof.
  split; [reflexivity |].
  refine (banner_plain_text (Spec.noted_renderer "Generated page.")
            "Generated page." eq_refl _ eq_refl).
  discriminate.
Defined.

Lemma banner_injective_witness :
  _render_warning (Spec.noted_renderer "a<b")
  = _render_warning (Spec.noted_renderer "a<b")
  /\ "a<b" = "a<b".
Proof.
  split; [reflexivity |].
  exact (banner_injective (Spec.noted_renderer "a<b") (Spec.noted_renderer "a<b")
           "a<b" "a<b" eq_refl eq_refl eq_refl).
Defined.

Lemma pass_keeps_configuration_witness :
  Pass.run Spec.no_bracketed_host [Pass.Header "Title" 1 None] Spec.sample_renderer
  = Ok (["<h1>Title</h1>" ++ LF], Spec.sample_after_header)
  /\ authors Spec.sample_after_header = authors Spec.sample_renderer.
Proof.
  split; [reflexivity |].
  exact (proj1 (pass_keeps_configuration Spec.no_bracketed_host
                  [Pass.Header "Title" 1 None]
                  Spec.sample_renderer Spec.sample_after_header
                  ["<h1>Title</h1>" ++ LF] eq_refl)).
Defined.

Lemma renderer_state_carries_over_witness :
  Pass.run Spec.no_bracketed_host
    [Pass.Header "Title" 1 None; Pass.Image "img/a.png" "t" "a"]
    Spec.sample_renderer
  = Ok (["<h1>Title</h1>" ++ LF; Spec.attachment_reference "a.png"],
        Spec.after_first_pass)
  /\ Pass.run Spec.no_bracketed_host
       [Pass.Image "img/b.png" "t" "a"; Pass.BlockCode "x = 1" (Some "py")]
       Spec.after_first_pass
     = Ok ([Spec.attachment_reference "b.png";
            Spec.code_open "py" ++ "x = 1" ++ Spec.code_close],
           Spec.after_second_pass)
  /\ (exists more : list string,
         attachments Spec.after_second_pass
         = (attachments Spec.after_first_pass ++ more)%list)
  /\ has_toc Spec.after_second_pass = true
  /\ layout_toc Spec.after_second_pass = Spec.toc_fragment.
Proof.
  split; [reflexivity | split; [reflexivity |]].
  destruct (renderer_state_carries_over Spec.no_bracketed_host
              [Pass.Header "Title" 1 None; Pass.Image "img/a.png" "t" "a"]
              [Pass.Image "img/b.png" "t" "a"; Pass.BlockCode "x = 1" (Some "py")]
              Spec.sample_renderer Spec.after_first_pass Spec.after_second_pass
              ["<h1>Title</h1>" ++ LF; Spec.attachment_reference "a.png"]
              [Spec.attachment_reference "b.png";
               Spec.code_open "py" ++ "x = 1" ++ Spec.code_close]
              eq_refl eq_refl)
    as (A & H & T).
  split; [exact A | split; [exact (H eq_refl) | exact (T eq_refl eq_refl)]].
Defined.

Lemma attachment_path_normalised_witness :
  UrlParse.netloc Spec.no_bracketed_host "../../../../img/./a.png" = Ok EmptyString
  /\ exists (n : nat) (comps : list string) (fragment : string),
      image Spec.no_bracketed_host "../../../../img/./a.png" "t" "a"
        Spec.sample_renderer
      = Ok (fragment,
            Spec.with_attachment Spec.sample_renderer
              (repeat_char "/" n ++ Py.join "/" comps))
      /\ (n = 1 \/ n = 2)%nat.
Proof.
  split; [reflexivity |].
  destruct (attachment_path_normalised Spec.no_bracketed_host
              Spec.sample_renderer "../../../../img/./a.png" "t" "a"
              eq_refl eq_refl)
    as (n & comps & fragment & I & N & _).
  exists n, comps, fragment. split; [exact I | exact N].
Defined.

(* ===================================================================== *)
(** ** What [normpath] yields *)
(* ===================================================================== *)








(* ===================================================================== *)
(** ** A local image *)
(* ===================================================================== *)


